(** * Compliance scanner: a shallow embedding of [compliance_check.py]

    The repository holds two variants of one batch pipeline:

    - the primary script [compliance_check.py], which turns a GitHub
      address into a listing endpoint, downloads the Python files of the
      listing into a staging directory, runs Bandit on every staged file
      and writes the issues to [compliance_report.csv] through pandas;
    - the workflow script [.github/workflows/compliance_check.py], which
      clones the repository into a temporary directory, runs Bandit once
      on the clone and writes the report through the [csv] module.

    Python values are embedded as the inductive [pyval]; effects (standard
    output, HTTP requests, the file system) are threaded through a state
    and exception monad over the record [World]. *)

From Stdlib Require Import ZArith Ascii String Lia.
From Stdlib Require Import DecimalString.
From stdpp Require Import base list gmap strings.

Set Warnings "-register-all".

Open Scope Z_scope.

(** ** Strings as Python uses them *)

Module PyString.

Definition sep : ascii := "/"%char.

(** [c.lower()] on one character: only [A]..[Z] move. *)
Definition lower_char (c : ascii) : ascii :=
  let n := nat_of_ascii c in
  if ((65 <=? n) && (n <=? 90))%nat then ascii_of_nat (n + 32) else c.

Fixpoint lower (s : string) : string :=
  match s with
  | EmptyString => EmptyString
  | String c r => String (lower_char c) (lower r)
  end.

(** [s.startswith(p)] *)
Definition startswith (s p : string) : bool := String.prefix p s.

(** [s[n:]] *)
Fixpoint drop (n : nat) (s : string) : string :=
  match n, s with
  | O, _ => s
  | S _, EmptyString => EmptyString
  | S k, String _ r => drop k r
  end.

(** [s.endswith(p)] *)
Definition endswith (s p : string) : bool :=
  (String.length p <=? String.length s)%nat
  && String.eqb (drop (String.length s - String.length p) s) p.

(** [s.split(c)] for a one-character separator: the pieces between the
    separators, empty pieces included, so the result is never empty. *)
Fixpoint split_on (c : ascii) (s : string) : list string :=
  match s with
  | EmptyString => [EmptyString]
  | String a r =>
      if Ascii.eqb a c then EmptyString :: split_on c r
      else match split_on c r with
           | p :: ps => String a p :: ps
           | [] => [String a EmptyString]
           end
  end.

Fixpoint contains (c : ascii) (s : string) : bool :=
  match s with
  | EmptyString => false
  | String a r => Ascii.eqb a c || contains c r
  end.

(** [s.rstrip('/')] *)
Fixpoint rstrip_sep (s : string) : string :=
  match s with
  | EmptyString => EmptyString
  | String a r =>
      match rstrip_sep r with
      | EmptyString => if Ascii.eqb a sep then EmptyString else String a EmptyString
      | r' => String a r'
      end
  end.

(** [s[:n]] *)
Fixpoint take (n : nat) (s : string) : string :=
  match n, s with
  | O, _ => EmptyString
  | S _, EmptyString => EmptyString
  | S k, String a r => String a (take k r)
  end.

(** [os.path.basename(p)]: what follows the last separator. *)
Definition basename (p : string) : string :=
  List.last (split_on sep p) EmptyString.

(** [os.path.dirname(p)]: what precedes the base name, without its
    trailing separators unless it consists of separators only. *)
Definition dirname (p : string) : string :=
  let head := take (String.length p - String.length (basename p)) p in
  match rstrip_sep head with
  | EmptyString => head
  | h => h
  end.

(** [os.path.join(a, b)] *)
Definition path_join (a b : string) : string :=
  if startswith b "/" then b
  else if String.eqb a "" || endswith a "/" then a +:+ b
  else a +:+ "/" +:+ b.

(** [str(n)] for a natural number. *)
Definition of_nat (n : nat) : string :=
  NilEmpty.string_of_uint (Nat.to_uint n).

End PyString.

(** ** Python values, exceptions and the world *)

(** The values that travel through the scripts: JSON payloads, dictionary
    records and the cells of a report. A dictionary keeps its keys in
    insertion order, as Python does. *)
Inductive pyval : Type :=
| PyNone
| PyBool (b : bool)
| PyInt (n : Z)
| PyStr (s : string)
| PyList (l : list pyval)
| PyDict (kv : list (string * pyval)).

(** [v == 'literal']: a value equals a string literal only when it is
    itself a string with the same characters. In particular an integer
    never equals a string. *)
Definition py_eq_str (v : pyval) (lit : string) : bool :=
  match v with
  | PyStr s => String.eqb s lit
  | _ => false
  end.

Inductive exn : Type :=
| AssertionError (msg : string)
| ValueError (msg : string)
| NameError (name : string)
| KeyError (key : string)
| TypeError
| MissingSchema
| RequestException
| JSONDecodeError
| IndexError
| FileNotFoundError (path : string)
| IsADirectoryError (path : string)
| SystemExit (code : Z).

Inductive Res (A : Type) : Type :=
| Ok (a : A)
| Raise (e : exn).
Arguments Ok {A} a.
Arguments Raise {A} e.

(** Iterating a value with [for x in v]. *)
Fixpoint chars (s : string) : list pyval :=
  match s with
  | EmptyString => []
  | String c r => PyStr (String c EmptyString) :: chars r
  end.

Definition py_iter (v : pyval) : Res (list pyval) :=
  match v with
  | PyList l => Ok l
  | PyDict kv => Ok (map (fun p => PyStr (fst p)) kv)
  | PyStr s => Ok (chars s)
  | _ => Raise TypeError
  end.

Fixpoint dict_get (kv : list (string * pyval)) (key : string) : option pyval :=
  match kv with
  | [] => None
  | (k, v) :: r => if String.eqb k key then Some v else dict_get r key
  end.

(** [v['key']] with a string key. *)
Definition py_getitem (v : pyval) (key : string) : Res pyval :=
  match v with
  | PyDict kv =>
      match dict_get kv key with
      | Some x => Ok x
      | None => Raise (KeyError key)
      end
  | _ => Raise TypeError
  end.

(** The exception [requests.get] raises for a string that gets no
    response. A string without a colon has no scheme, and [MissingSchema]
    is raised before anything is sent. For any other string the exception
    is one of the classes of [requests] ([InvalidSchema], [InvalidURL],
    [MissingSchema], [ConnectionError], [Timeout], ...): which one depends
    on the address and on the network, and the model only says that it is
    a [RequestException], their common base class. *)
Definition request_error (u : string) : exn :=
  if PyString.contains ":" u then RequestException else MissingSchema.

(** An HTTP response as [requests] hands it over: the numeric status code,
    the body as text, and what [response.json()] makes of the body
    ([None] when the body is not JSON and the decoder raises). *)
Record Response : Type := {
  status_code : Z;
  text : string;
  json : option pyval
}.

(** What a file holds: text written with [f.write], or a table written by
    a CSV serializer, one list of cells per row. *)
Inductive FileContent : Type :=
| Text (s : string)
| Table (rows : list (list pyval)).

(** What the outside can observe of a run, in order. *)
Inductive Event : Type :=
| EPrint (v : pyval)
| EGet (url : pyval)
| ERun (argv : list string).

Record World : Type := {
  w_files : gmap string FileContent;
  w_dirs : gset string;
  w_trace : list Event;
  w_tmp : nat
}.

Definition empty_world : World :=
  {| w_files := ∅; w_dirs := ∅; w_trace := []; w_tmp := 0 |}.

(** The world after some more events. *)
Definition log (es : list Event) (w : World) : World :=
  {| w_files := w_files w; w_dirs := w_dirs w;
     w_trace := w_trace w ++ es; w_tmp := w_tmp w |}.

(** The world after a file is stored. *)
Definition put_file (p : string) (c : FileContent) (w : World) : World :=
  {| w_files := <[p := c]> (w_files w); w_dirs := w_dirs w;
     w_trace := w_trace w; w_tmp := w_tmp w |}.

(** ** The monad of a script: state and exceptions *)

Definition M (A : Type) : Type := World -> Res A * World.

Definition ret {A} (a : A) : M A := fun w => (Ok a, w).

Definition raise {A} (e : exn) : M A := fun w => (Raise e, w).

Definition bind {A B} (c : M A) (k : A -> M B) : M B :=
  fun w =>
    match c w with
    | (Ok a, w') => k a w'
    | (Raise e, w') => (Raise e, w')
    end.

Notation "x <- c ;; k" := (bind c (fun x => k))
  (at level 100, c at next level, right associativity).
Notation "c ;;; k" := (bind c (fun _ => k))
  (at level 100, right associativity).

Definition lift {A} (r : Res A) : M A := fun w => (r, w).

(** [for x in xs: body(x)] *)
Fixpoint for_each {A} (xs : list A) (body : A -> M unit) : M unit :=
  match xs with
  | [] => ret tt
  | x :: r => body x ;;; for_each r body
  end.

(** A loop that updates one local variable. *)
Fixpoint for_fold {A S} (xs : list A) (s : S) (body : S -> A -> M S) : M S :=
  match xs with
  | [] => ret s
  | x :: r => s' <- body s x ;; for_fold r s' body
  end.

Definition emit (e : Event) : M unit := fun w => (Ok tt, log [e] w).

Definition print (v : pyval) : M unit := emit (EPrint v).

(** [assert cond, msg] *)
Definition py_assert (cond : bool) (msg : string) : M unit :=
  if cond then ret tt else raise (AssertionError msg).

(** ** The file system *)

Definition path_exists (p : string) : M bool :=
  fun w => (Ok (bool_decide (p ∈ w_dirs w) || bool_decide (is_Some (w_files w !! p))), w).

(** The directories [os.makedirs(p)] has to create: [p] and its ancestors. *)
Fixpoint makedirs_paths (fuel : nat) (p : string) : list string :=
  match fuel with
  | O => []
  | S k =>
      if String.eqb p "" || String.eqb (PyString.rstrip_sep p) "" then []
      else p :: makedirs_paths k (PyString.dirname p)
  end.

Definition makedirs (p : string) : M unit :=
  fun w =>
    if String.eqb p "" then (Raise (FileNotFoundError p), w)
    else (Ok tt, {| w_files := w_files w;
                    w_dirs := list_to_set (makedirs_paths (S (String.length p)) p) ∪ w_dirs w;
                    w_trace := w_trace w; w_tmp := w_tmp w |}).

(** Opening [p] for writing and storing [c]: the parent directory has to
    exist (the working directory, written [""], always does) and [p] must
    not name a directory. *)
Definition parent_exists (p : string) (w : World) : bool :=
  String.eqb (PyString.dirname p) "" || bool_decide (PyString.dirname p ∈ w_dirs w).

Definition write_file (p : string) (c : FileContent) : M unit :=
  fun w =>
    if bool_decide (p ∈ w_dirs w) then (Raise (IsADirectoryError p), w)
    else if parent_exists p w
    then (Ok tt, put_file p c w)
    else (Raise (FileNotFoundError p), w).

(** A path a file can be written to. *)
Definition writable (p : string) (w : World) : bool :=
  negb (bool_decide (p ∈ w_dirs w)) && parent_exists p w.

(** A path lies under a directory when it is the directory or continues
    it after a separator. *)
Definition under (d p : string) : bool :=
  String.eqb p d || PyString.startswith p (d +:+ "/").

(** [shutil.rmtree(d)] *)
Definition rmtree (d : string) : M unit :=
  fun w =>
    if bool_decide (d ∈ w_dirs w)
    then (Ok tt, {| w_files := filter (fun kv => under d (fst kv) = false) (w_files w);
                    w_dirs := filter (fun p => under d p = false) (w_dirs w);
                    w_trace := w_trace w; w_tmp := w_tmp w |})
    else (Raise (FileNotFoundError d), w).

(** [tempfile.mkdtemp()]: a directory that did not exist before. *)
Definition tmp_name (n : nat) : string := "/tmp/tmp" +:+ PyString.of_nat n.

Fixpoint fresh_tmp (fuel n : nat) (ds : gset string) : nat :=
  match fuel with
  | O => n
  | S k => if bool_decide (tmp_name n ∈ ds) then fresh_tmp k (S n) ds else n
  end.

Definition mkdtemp : M string :=
  fun w =>
    let n := fresh_tmp (size (w_dirs w)) (w_tmp w) (w_dirs w) in
    (Ok (tmp_name n),
     {| w_files := w_files w; w_dirs := {[tmp_name n]} ∪ w_dirs w;
        w_trace := w_trace w; w_tmp := S n |}).

(** ** Bandit's issue objects *)

Module Bandit.

(** An issue as the scripts read it: the attributes [fname], [lineno],
    [severity], [confidence] and [text], and, as for every Python object,
    its identity [oid] (what [id(issue)] returns). *)
Record Issue : Type := {
  oid : nat;
  fname : string;
  lineno : Z;
  severity : string;
  confidence : string;
  text : string
}.

(** Agreement on the five attributes the report shows. *)
Definition same_fields (a b : Issue) : bool :=
  String.eqb (fname a) (fname b) && (lineno a =? lineno b)
  && String.eqb (severity a) (severity b)
  && String.eqb (confidence a) (confidence b)
  && String.eqb (text a) (text b).

(** Being one and the same object. Bandit's Issue class hashes an issue
    by its identity ([__hash__] returns [id(self)]), so a set holds two
    issues as one element only when they are one object. *)
Definition same_object (a b : Issue) : bool := Nat.eqb (oid a) (oid b).

End Bandit.

(** ** pandas: a frame built from records and written as CSV *)

Module Pandas.

Record DataFrame : Type := {
  columns : list string;
  values : list (list pyval)
}.

Definition add_keys (cols : list string) (rec : list (string * pyval)) : list string :=
  fold_left (fun cs k => if existsb (String.eqb k) cs then cs else cs ++ [k])
            (map fst rec) cols.

(** [pd.DataFrame(data)] for a list of dictionaries: the columns are the
    keys in the order they first appear, a missing key gives an empty
    cell. With no record there is no column. *)
Definition from_records (data : list (list (string * pyval))) : DataFrame :=
  let cols := fold_left add_keys data [] in
  {| columns := cols;
     values := map (fun rec => map (fun c => default PyNone (dict_get rec c)) cols) data |}.

(** [df.to_csv(path, index=False)]: the line of column names, then one
    line per record. *)
Definition csv_rows (df : DataFrame) : list (list pyval) :=
  map PyStr (columns df) :: values df.

Definition to_csv (df : DataFrame) (path : string) : M unit :=
  write_file path (Table (csv_rows df)).

End Pandas.

(** ** The primary script *)

Section Primary.

(** The remote side: the response [requests.get] returns for an address,
    when it returns one. An address that is not answered, for whatever
    reason (no scheme, no such host, no connection), has [None]. *)
Variable remote : string -> option Response.

(** The analysis engine. A manager is created once and keeps state from
    one file to the next; running it on a path either succeeds or raises
    (the message is what [str(e)] shows), and its [results] can be read
    afterwards. *)
Variable Mgr : Type.
Variable mgr_new : Mgr.
Variable mgr_run : Mgr -> string -> option FileContent -> Mgr * option string.
Variable mgr_results : Mgr -> list Bandit.Issue.

(** When a Python set takes two issues for one element: decided by the
    [__hash__] and [__eq__] of the Issue class. *)
Variable same : Bandit.Issue -> Bandit.Issue -> bool.

(** [requests.get(url)]. An address that is not a string, [None] in
    particular, makes it raise [MissingSchema]; a string that gets no
    response makes it raise [request_error]. *)
Definition requests_get (url : pyval) : M Response :=
  emit (EGet url) ;;;
  match url with
  | PyStr u =>
      match remote u with
      | Some r => ret r
      | None => raise (request_error u)
      end
  | _ => raise MissingSchema
  end.

(** [response.json()] *)
Definition response_json (r : Response) : M pyval :=
  match json r with
  | Some v => ret v
  | None => raise JSONDecodeError
  end.

(** [file_list] is the list the caller passes (or the default list
    object); the function appends to it and returns it. The name
    [get_all_nested_files] is bound nowhere, so reaching the call
    raises [NameError] before the argument is evaluated. *)
Definition get_file_list_recursive (url : pyval) (file_list : list pyval)
  : M (list pyval) :=
  response <- requests_get url ;;
  py_assert (py_eq_str (PyInt (status_code response)) "200") (text response) ;;;
  js_res <- response_json response ;;
  items <- lift (py_iter js_res) ;;
  for_fold items file_list (fun file_list item =>
    ty <- lift (py_getitem item "type") ;;
    if py_eq_str ty "file" then
      d <- lift (py_getitem item "download_url") ;;
      print d ;;;
      ret (file_list ++ [d])
    else if py_eq_str ty "dir" then
      raise (NameError "get_all_nested_files")
    else ret file_list).

Definition get_first_level_files (url : pyval) : M (list pyval) :=
  response <- requests_get url ;;
  py_assert (py_eq_str (PyInt (status_code response)) "200") (text response) ;;;
  files <- response_json response ;;
  items <- lift (py_iter files) ;;
  for_fold items [] (fun file_list file =>
    ty <- lift (py_getitem file "type") ;;
    if py_eq_str ty "file" then
      d <- lift (py_getitem file "download_url") ;;
      ret (file_list ++ [d])
    else ret file_list).

(** [os.path.join(local_dir, name)] needs a string. *)
Definition join_name (local_dir : string) (name : pyval) : M string :=
  match name with
  | PyStr n => ret (PyString.path_join local_dir n)
  | _ => raise TypeError
  end.

Definition download_files (repo_url : pyval) (local_dir : string) : M unit :=
  response <- requests_get repo_url ;;
  files <- response_json response ;;
  present <- path_exists local_dir ;;
  (if present then ret tt else makedirs local_dir) ;;;
  items <- lift (py_iter files) ;;
  for_each items (fun file =>
    download_url <- lift (py_getitem file "download_url") ;;
    name <- lift (py_getitem file "name") ;;
    file_name <- join_name local_dir name ;;
    if negb (PyString.endswith (PyString.lower file_name) ".py") then
      print (PyStr ("Skipping file '" +:+ file_name +:+ "' as it is not a python file"))
    else
      print (PyStr ("Downloading to path '" +:+ file_name +:+ "'")) ;;;
      r <- requests_get download_url ;;
      write_file file_name (Text (text r))).

Definition run_bandit_on_file (b_mgr : Mgr) (file_path : string)
  : M (Mgr * list Bandit.Issue) :=
  fun w =>
    match mgr_run b_mgr file_path (w_files w !! file_path) with
    | (m, None) => (Ok (m, mgr_results m), w)
    | (m, Some e) =>
        (print (PyStr ("Error running bandit on " +:+ file_path +:+ ": " +:+ e)) ;;;
         ret (m, [])) w
    end.

(** [os.walk(directory)]: the directory and the directories below it,
    each with the names of the files it holds. *)
Definition files_in (w : World) (root : string) : list string :=
  map PyString.basename
      (filter (fun p => PyString.dirname p = root) (map fst (map_to_list (w_files w)))).

Definition os_walk (directory : string) : M (list (string * list string)) :=
  fun w =>
    let roots :=
      if bool_decide (directory ∈ w_dirs w)
      then directory ::
           filter (fun d => PyString.startswith d (directory +:+ "/") = true)
                  (elements (w_dirs w))
      else [] in
    (Ok (map (fun r => (r, files_in w r)) roots), w).

Definition scan_directory (directory : string) : M (list Bandit.Issue) :=
  let b_mgr := mgr_new in
  tree <- os_walk directory ;;
  st <- for_fold tree (b_mgr, [])
    (fun st entry =>
      let root := fst entry in
      for_fold (snd entry) st (fun st file =>
        if PyString.endswith file ".py" then
          let file_path := PyString.path_join root file in
          print (PyStr ("Scanning " +:+ file_path +:+ "...")) ;;;
          res <- run_bandit_on_file (fst st) file_path ;;
          ret (fst res, snd st ++ snd res)
        else ret st)) ;;
  ret (snd st).

(** The keys of the dictionary [format_issue] returns, and its values. *)
Definition report_columns : list string :=
  ["File"; "Line"; "Severity"; "Confidence"; "Issue"].

Definition cells (issue : Bandit.Issue) : list pyval :=
  [ PyStr (PyString.basename (Bandit.fname issue));
    PyInt (Bandit.lineno issue);
    PyStr (Bandit.severity issue);
    PyStr (Bandit.confidence issue);
    PyStr (Bandit.text issue) ].

Definition format_issue (issue : Bandit.Issue) : list (string * pyval) :=
  [ ("File", PyStr (PyString.basename (Bandit.fname issue)));
    ("Line", PyInt (Bandit.lineno issue));
    ("Severity", PyStr (Bandit.severity issue));
    ("Confidence", PyStr (Bandit.confidence issue));
    ("Issue", PyStr (Bandit.text issue)) ].

(** [set(issues)]: an element enters unless the set already holds an
    entry that takes it for the same. The list stands for the set: it
    holds the elements in the order they entered, whereas Python iterates
    a set in an order fixed by the hashes of its elements (for Bandit's
    issues, by their addresses). What is said of the list carries over to
    the code up to a permutation of the elements, hence of the data rows
    of a report. *)
Definition set_add (s : list Bandit.Issue) (x : Bandit.Issue) : list Bandit.Issue :=
  if existsb (fun y => same y x) s then s else s ++ [x].

Definition py_set (issues : list Bandit.Issue) : list Bandit.Issue :=
  fold_left set_add issues [].

(** No entry of a set takes a later entry for the same. *)
Definition apart (s : list Bandit.Issue) : Prop :=
  forall s1 y1 s2 y2 s3, s = s1 ++ y1 :: s2 ++ y2 :: s3 -> same y1 y2 = false.

(** The entries of a set that take [x] for the same. *)
Definition kept_for (x : Bandit.Issue) (s : list Bandit.Issue) : list Bandit.Issue :=
  List.filter (fun y => same y x) s.

(** The rows of the frame [save_compliance_report] builds. *)
Definition issues_data (issues : list Bandit.Issue) : list (list (string * pyval)) :=
  map format_issue (py_set issues).

Definition save_compliance_report (issues : list Bandit.Issue) (output_file : string)
  : M unit :=
  let df := Pandas.from_records (issues_data issues) in
  Pandas.to_csv df output_file ;;;
  print (PyStr ("Issues saved to '" +:+ output_file +:+ "'")).

(** The rows of the file [save_compliance_report] writes for [issues]. *)
Definition report_rows (issues : list Bandit.Issue) : list (list pyval) :=
  Pandas.csv_rows (Pandas.from_records (issues_data issues)).

Definition github_prefix : string := "https://github.com/".

(** [url[len("https://github.com/"):].split('/')] *)
Definition repo_path (url : string) : list string :=
  PyString.split_on "/" (PyString.drop (String.length github_prefix) url).

Definition convert_github_url_to_api (url : string) : Res string :=
  if negb (PyString.startswith url github_prefix)
  then Raise (ValueError "Invalid GitHub URL")
  else
    if (2 <=? length (repo_path url))%nat then
      match repo_path url with
      | owner :: repo :: _ =>
          Ok ("https://api.github.com/repos/" +:+ owner +:+ "/" +:+ repo +:+ "/contents/")
      | _ => Raise IndexError
      end
    else Raise (AssertionError "Looks like an invalid('/')").

Definition main (repo_url : pyval) (directory : string) : M unit :=
  download_files repo_url directory ;;;
  issues <- scan_directory directory ;;
  print (PyStr "====================ISSUE_LIST====================") ;;;
  for_each issues (fun issue =>
    print (PyStr (Bandit.text issue +:+ " '" +:+ Bandit.fname issue +:+ "'"))) ;;;
  print (PyStr "====================XXXXXXXXXX====================") ;;;
  match issues with
  | _ :: _ => save_compliance_report issues "compliance_report.csv"
  | [] => print (PyStr "No issues found.")
  end.

(** What [main] prints between the scan and the report. *)
Definition issue_list (issues : list Bandit.Issue) : list Event :=
  [EPrint (PyStr "====================ISSUE_LIST====================")]
  ++ map (fun issue =>
            EPrint (PyStr (Bandit.text issue +:+ " '" +:+ Bandit.fname issue +:+ "'")))
         issues
  ++ [EPrint (PyStr "====================XXXXXXXXXX====================")].

(** [try: ... except ValueError as e: ...]: any other exception passes. *)
Definition except_ValueError {A} (c : M A) (handler : string -> M A) : M A :=
  fun w =>
    match c w with
    | (Raise (ValueError msg), w') => handler msg w'
    | r => r
    end.

(** The block under [if __name__ == "__main__"]; [argv] is [sys.argv]. *)
Definition script (argv : list string) : M unit :=
  api_url <-
    (if negb (length argv =? 2)%nat then
       print (PyStr "Usage: python <file_name> <repo_url>") ;;; ret PyNone
     else
       let repo_url := nth 1 argv "" in
       except_ValueError
         (api_url <- lift (convert_github_url_to_api repo_url) ;;
          print (PyStr api_url) ;;;
          ret (PyStr api_url))
         (fun e => print (PyStr e) ;;; ret PyNone)) ;;
  main api_url "temp".

End Primary.

(** The first row of a stored table. *)
Definition header_row (c : option FileContent) : option (list pyval) :=
  match c with
  | Some (Table (h :: _)) => Some h
  | _ => None
  end.

(** A test that behaves as an equality has to. *)
Definition is_equivalence (same : Bandit.Issue -> Bandit.Issue -> bool) : Prop :=
  (forall a, same a a = true)
  /\ (forall a b, same a b = true -> same b a = true)
  /\ (forall a b c, same a b = true -> same b c = true -> same a c = true).

(** ** The workflow script *)

(** What [subprocess.run(..., capture_output=True, text=True)] returns, as
    far as the script looks at it: the captured standard output and what
    [json.loads] makes of it ([None] when the decoder raises). *)
Record Completed : Type := {
  stdout : string;
  stdout_json : option pyval
}.

Module Workflow.
Section Workflow.

(** Running an external command: it may change the world and it may
    raise (the executable is missing). A non-zero exit status does not
    raise, the script passes no [check=True]. *)
Variable run_process : list string -> M Completed.

(** [__file__] *)
Variable script_file : string.

Definition subprocess_run (argv : list string) : M Completed :=
  emit (ERun argv) ;;; run_process argv.

(** [json.loads(result.stdout)] *)
Definition json_loads (result : Completed) : M pyval :=
  match stdout_json result with
  | Some v => ret v
  | None => raise JSONDecodeError
  end.

Definition headers : list string :=
  ["Filename"; "Line Number"; "Issue Severity"; "Issue Confidence";
   "Issue Text"; "More Info"].

(** The [with open(...)] block: the header row, then the data rows. *)
Definition write_report (csv_filename : string) (csv_data : list (list pyval))
  : M unit :=
  write_file csv_filename (Table (map PyStr headers :: csv_data)).

Definition run_bandit (target_path output_dir : string) : M unit :=
  temp_dir <- mkdtemp ;;
  subprocess_run ["git"; "clone"; target_path; temp_dir] ;;;
  result <- subprocess_run ["bandit"; "-r"; temp_dir; "-f"; "json"] ;;
  bandit_data <- json_loads result ;;
  results <- lift (py_getitem bandit_data "results") ;;
  items <- lift (py_iter results) ;;
  csv_data <- for_fold items [] (fun csv_data result =>
    filename <- lift (py_getitem result "filename") ;;
    line_number <- lift (py_getitem result "line_number") ;;
    issue_severity <- lift (py_getitem result "issue_severity") ;;
    issue_confidence <- lift (py_getitem result "issue_confidence") ;;
    issue_text <- lift (py_getitem result "issue_text") ;;
    more_info <- lift (py_getitem result "more_info") ;;
    ret (csv_data ++ [[filename; line_number; issue_severity;
                       issue_confidence; issue_text; more_info]])) ;;
  let csv_filename := PyString.path_join output_dir "compliance_report.csv" in
  write_report csv_filename csv_data ;;;
  print (PyStr ("CSV file '" +:+ csv_filename +:+ "' has been created successfully.")) ;;;
  rmtree temp_dir.

(** The block under [if __name__ == "__main__"]. *)
Definition script (argv : list string) : M unit :=
  if negb (length argv =? 3)%nat then
    print (PyStr ("Usage: " +:+ PyString.basename script_file
                  +:+ " <github_repository> <output_directory>")) ;;;
    raise (SystemExit 1)
  else
    let github_repo := nth 1 argv "" in
    let output_dir := nth 2 argv "" in
    present <- path_exists output_dir ;;
    (if present then ret tt else makedirs output_dir) ;;;
    run_bandit github_repo output_dir.

End Workflow.
End Workflow.

(** ** Relations between the world before and after a computation *)

(** Nothing happened but output: the later world is the earlier one with
    more events. *)
Definition only_logs (w w' : World) : Prop := exists es, w' = log es w.

(** The later world has every directory of the earlier one, and every
    file whose path does not end in [.py], whatever the case of the
    letters, is as it was. *)
Definition keeps_other_files (w w' : World) : Prop :=
  w_dirs w ⊆ w_dirs w'
  /\ forall p, PyString.endswith (PyString.lower p) ".py" = false ->
               w_files w' !! p = w_files w !! p.

(** A computation whose final world is always related to its initial one,
    whether it returns or raises. *)
Definition preserves (R : World -> World -> Prop) {A} (c : M A) : Prop :=
  forall w, R w (snd (c w)).

(** A computation that always returns and does nothing but output. *)
Definition prints_only {A} (c : M A) : Prop :=
  forall w, exists a es, c w = (Ok a, log es w).

(** The later world has every directory of the earlier one. *)
Definition keeps_dirs (w w' : World) : Prop := w_dirs w ⊆ w_dirs w'.

(** The outcome of a computation that is to remove the directory [d]:
    gone when it returns, still there when it raises. *)
Definition removed_iff_returned {A} (d : string) (out : Res A * World) : Prop :=
  match fst out with
  | Ok _ => d ∉ w_dirs (snd out)
  | Raise _ => d ∈ w_dirs (snd out)
  end.

(** The keys [run_bandit] reads in a result, in the order of the columns,
    and a result that has them all, with the cells it gives. *)
Definition result_fields : list string :=
  ["filename"; "line_number"; "issue_severity"; "issue_confidence";
   "issue_text"; "more_info"].

Definition reads_row (result : pyval) (row : list pyval) : Prop :=
  Forall2 (fun key cell => py_getitem result key = Ok cell) result_fields row.

(** ** What a listing asks the download to store *)

(** An entry of a listing as [download_files] reads it: the value under
    [name], which has to be a string, and the value under [download_url]. *)
Definition reads_as (item : pyval) (e : string * pyval) : Prop :=
  py_getitem item "download_url" = Ok (snd e)
  /\ py_getitem item "name" = Ok (PyStr (fst e)).

(** The entry is stored when its path ends in [.py]: then its address has
    to be a string that the remote side answers. *)
Definition fetchable (remote : string -> option Response) (local_dir : string)
    (w : World) (e : string * pyval) : Prop :=
  let file_name := PyString.path_join local_dir (fst e) in
  PyString.endswith (PyString.lower file_name) ".py" = true ->
  writable file_name w = true
  /\ exists u r, snd e = PyStr u /\ remote u = Some r.

(** The files after one entry: a source file is stored with the body its
    address returns, any other entry changes nothing. *)
Definition stage_entry (remote : string -> option Response) (local_dir : string)
    (m : gmap string FileContent) (e : string * pyval) : gmap string FileContent :=
  let file_name := PyString.path_join local_dir (fst e) in
  if PyString.endswith (PyString.lower file_name) ".py" then
    match snd e with
    | PyStr u =>
        match remote u with
        | Some r => <[file_name := Text (text r)]> m
        | None => m
        end
    | _ => m
    end
  else m.

(** ** Concrete data: a small repository, an engine, some issues *)

Module Demo.

Definition dq : string := String (ascii_of_nat 34) EmptyString.

(** The JSON text of a value (no escapes are needed for the data below). *)
Fixpoint dumps (v : pyval) : string :=
  match v with
  | PyNone => "null"
  | PyBool b => if b then "true" else "false"
  | PyInt n => NilEmpty.string_of_int (Z.to_int n)
  | PyStr s => dq +:+ s +:+ dq
  | PyList l =>
      "[" +:+ (fix items (l : list pyval) : string :=
                 match l with
                 | [] => ""
                 | [x] => dumps x
                 | x :: r => dumps x +:+ ", " +:+ items r
                 end) l +:+ "]"
  | PyDict kv =>
      "{" +:+ (fix members (kv : list (string * pyval)) : string :=
                 match kv with
                 | [] => ""
                 | [(k, x)] => dq +:+ k +:+ dq +:+ ": " +:+ dumps x
                 | (k, x) :: r => dq +:+ k +:+ dq +:+ ": " +:+ dumps x +:+ ", " +:+ members r
                 end) kv +:+ "}"
  end.

Definition json_response (code : Z) (v : pyval) : Response :=
  {| status_code := code; text := dumps v; json := Some v |}.

Definition text_response (code : Z) (body : string) : Response :=
  {| status_code := code; text := body; json := None |}.

Definition api_url : string := "https://api.github.com/repos/o/r/contents/".
Definition pkg_url : string := "https://api.github.com/repos/o/r/contents/pkg".
Definition a_raw : string := "https://raw.githubusercontent.com/o/r/main/a.py".
Definition b_raw : string := "https://raw.githubusercontent.com/o/r/main/pkg/b.py".
Definition empty_url : string := "https://api.github.com/repos/o/empty/contents/".
Definition gone_url : string := "https://api.github.com/repos/o/gone/contents/".

Definition file_entry (name download_url : string) : pyval :=
  PyDict [("name", PyStr name); ("type", PyStr "file");
          ("download_url", PyStr download_url)].

Definition dir_entry (name url : string) : pyval :=
  PyDict [("name", PyStr name); ("type", PyStr "dir");
          ("download_url", PyNone); ("url", PyStr url)].

(** One file [a.py] and one directory [pkg] that holds [b.py]. *)
Definition listing : pyval :=
  PyList [file_entry "a.py" a_raw; dir_entry "pkg" pkg_url].

Definition pkg_listing : pyval := PyList [file_entry "b.py" b_raw].

Definition a_source : string := "assert True".
Definition b_source : string := "import pickle".

(** What the host answers for a repository it does not know. *)
Definition missing_url : string := "https://api.github.com/repos/o/missing/contents/".
Definition not_found : pyval := PyDict [("message", PyStr "Not Found")].

(** A repository whose only entry is a directory named like a source file. *)
Definition odd_url : string := "https://api.github.com/repos/o/odd/contents/".
Definition odd_listing : pyval :=
  PyList [dir_entry "tools.py" "https://api.github.com/repos/o/odd/contents/tools.py"].

Definition remote (u : string) : option Response :=
  if String.eqb u api_url then Some (json_response 200 listing)
  else if String.eqb u missing_url then Some (json_response 404 not_found)
  else if String.eqb u odd_url then Some (json_response 200 odd_listing)
  else if String.eqb u pkg_url then Some (json_response 200 pkg_listing)
  else if String.eqb u a_raw then Some (text_response 200 a_source)
  else if String.eqb u b_raw then Some (text_response 200 b_source)
  else if String.eqb u empty_url then Some (json_response 200 (PyList []))
  else if String.eqb u gone_url then Some (json_response 404 (PyList []))
  else None.

(** An engine that reports one issue for every file it is run on and,
    like Bandit's manager, keeps the issues of earlier runs in its
    results. *)
Definition Mgr : Type := list Bandit.Issue.

Definition mgr_new : Mgr := [].

Definition found (n : nat) (path : string) : Bandit.Issue :=
  {| Bandit.oid := n; Bandit.fname := path; Bandit.lineno := 1;
     Bandit.severity := "LOW"; Bandit.confidence := "HIGH";
     Bandit.text := "Use of assert detected." |}.

Definition mgr_run (m : Mgr) (path : string) (content : option FileContent)
  : Mgr * option string :=
  match content with
  | Some (Text _) => (m ++ [found (length m) path], None)
  | _ => (m, Some "not a source file")
  end.

Definition mgr_results (m : Mgr) : list Bandit.Issue := m.

(** Two issue objects with the same attributes, as two invocations of
    the engine on the same file produce them. *)
Definition first_run : Bandit.Issue := found 1 "temp/a.py".
Definition second_run : Bandit.Issue := found 2 "temp/a.py".

(** Two issues that differ in the directory of the file only. *)
Definition in_pkg1 : Bandit.Issue := found 1 "temp/pkg1/a.py".
Definition in_pkg2 : Bandit.Issue := found 2 "temp/pkg2/a.py".

(** The pipeline on the repository above, step by step. *)
Definition staged : World :=
  snd (download_files remote (PyStr api_url) "temp" empty_world).

Definition scanned : World :=
  snd (scan_directory Mgr mgr_new mgr_run mgr_results "temp" staged).

(** The pipeline on a repository without any file. *)
Definition staged_nothing : World :=
  snd (download_files remote (PyStr empty_url) "temp" empty_world).

Definition scanned_nothing : World :=
  snd (scan_directory Mgr mgr_new mgr_run mgr_results "temp" staged_nothing).

(** A staging directory that holds one file with an upper-case extension,
    as [download_files] stores it for an entry named [A.PY]. *)
Definition upper_case_world : World :=
  put_file "temp/A.PY" (Text a_source) staged_nothing.

(** An engine that raises on every file. *)
Definition failing_run (m : Mgr) (path : string) (content : option FileContent)
  : Mgr * option string := (m, Some "syntax error").



(** Commands that print nothing and leave the world alone. *)
Definition silent (argv : list string) : M Completed :=
  ret {| stdout := ""; stdout_json := None |}.

(** Commands where the engine reports one result. *)
Definition one_result : pyval :=
  PyDict [("results",
           PyList [PyDict [("filename", PyStr "/tmp/tmp0/a.py");
                           ("line_number", PyInt 1);
                           ("issue_severity", PyStr "LOW");
                           ("issue_confidence", PyStr "HIGH");
                           ("issue_text", PyStr "Use of assert detected.");
                           ("more_info", PyStr "https://bandit.readthedocs.io/")]])].

Definition reporting (argv : list string) : M Completed :=
  ret {| stdout := dumps one_result; stdout_json := Some one_result |}.

End Demo.

(** * Properties *)

(** ** Paths and strings *)

Example basename_nested : PyString.basename "temp/pkg/a.py" = "a.py".
Proof. reflexivity. Qed.

Example basename_plain : PyString.basename "a.py" = "a.py".
Proof. reflexivity. Qed.

Example dirname_nested : PyString.dirname "temp/pkg/a.py" = "temp/pkg".
Proof. reflexivity. Qed.

Example dirname_root : PyString.dirname "/a.py" = "/".
Proof. reflexivity. Qed.

Example dirname_plain : PyString.dirname "report.csv" = "".
Proof. reflexivity. Qed.

Example split_trailing : PyString.split_on "/" "owner/" = ["owner"; ""].
Proof. reflexivity. Qed.

Example join_plain : PyString.path_join "temp" "a.py" = "temp/a.py".
Proof. reflexivity. Qed.

Example endswith_py : PyString.endswith (PyString.lower "temp/A.PY") ".py" = true.
Proof. reflexivity. Qed.

Lemma split_on_not_nil (c : ascii) (s : string) : PyString.split_on c s <> [].
Proof.
  induction s as [|a r IH]; simpl; [discriminate|].
  destruct (Ascii.eqb a c); [discriminate|].
  destruct (PyString.split_on c r); discriminate.
Qed.




Lemma append_nil_l (b : string) : "" +:+ b = b.
Proof. reflexivity. Qed.

Lemma append_cons (x : ascii) (r b : string) : String x r +:+ b = String x (r +:+ b).
Proof. reflexivity. Qed.

Lemma split_on_nosep (c : ascii) (s : string) :
  PyString.contains c s = false -> PyString.split_on c s = [s].
Proof.
  induction s as [|a r IH]; simpl; [reflexivity|].
  intros H. apply orb_false_elim in H as [Ha Hr].
  rewrite Ha, (IH Hr). reflexivity.
Qed.

(** A string that holds the separator splits into two pieces at least. *)
Lemma split_on_two (c : ascii) (s : string) :
  PyString.contains c s = true -> (2 <= length (PyString.split_on c s))%nat.
Proof.
  induction s as [|a r IH]; simpl; [discriminate|].
  pose proof (split_on_not_nil c r) as Hne.
  destruct (Ascii.eqb a c); simpl.
  - intros _. destruct (PyString.split_on c r); [contradiction | simpl; lia].
  - intros Hr. specialize (IH Hr).
    destruct (PyString.split_on c r) as [|p ps]; [contradiction|].
    simpl in *. lia.
Qed.

(** Splitting at a separator splits the list of pieces. *)
Lemma split_on_app_sep (c : ascii) (a b : string) :
  PyString.split_on c (a +:+ String c b)
  = PyString.split_on c a ++ PyString.split_on c b.
Proof.
  induction a as [|x r IH]; [rewrite append_nil_l | rewrite append_cons]; simpl.
  - rewrite Ascii.eqb_refl. reflexivity.
  - destruct (Ascii.eqb x c); rewrite IH; [reflexivity|].
    pose proof (split_on_not_nil c r) as Hne.
    destruct (PyString.split_on c r) as [|p ps]; [contradiction | reflexivity].
Qed.

Lemma last_app_ne {A} (l1 l2 : list A) (d : A) :
  l2 <> [] -> List.last (l1 ++ l2) d = List.last l2 d.
Proof.
  intros Hne. induction l1 as [|x l1 IH]; [reflexivity|].
  simpl. destruct (l1 ++ l2) eqn:E; [|exact IH].
  apply app_eq_nil in E as [_ E]. contradiction.
Qed.

Lemma basename_after_sep (a b : string) :
  PyString.basename (a +:+ String PyString.sep b) = PyString.basename b.
Proof.
  unfold PyString.basename. rewrite split_on_app_sep.
  apply last_app_ne. apply split_on_not_nil.
Qed.

Lemma basename_nosep (s : string) :
  PyString.contains PyString.sep s = false -> PyString.basename s = s.
Proof. intros H. unfold PyString.basename. rewrite (split_on_nosep _ _ H). reflexivity. Qed.

Lemma append_assoc (a b c : string) : (a +:+ b) +:+ c = a +:+ (b +:+ c).
Proof.
  induction a as [|x r IH]; [reflexivity|].
  rewrite !append_cons. f_equal. exact IH.
Qed.

Lemma endswith_sep_inv (a : string) :
  PyString.endswith a "/" = true -> exists a', a = a' +:+ "/".
Proof.
  induction a as [|x r IH]; [discriminate|].
  destruct r as [|y r'].
  - unfold PyString.endswith. simpl. intros H.
    destruct (Ascii.eqb x "/") eqn:Ex; [|discriminate H].
    apply Ascii.eqb_eq in Ex. subst x. exists "". reflexivity.
  - intros H. destruct IH as [a' Ha'].
    + unfold PyString.endswith in *. simpl in *.
      rewrite Nat.sub_0_r in *. exact H.
    + exists (String x a'). rewrite append_cons, <- Ha'. reflexivity.
Qed.

Lemma prefix_cons (a c : ascii) (p n : string) :
  String.prefix (String a p) (String c n)
  = if ascii_dec a c then String.prefix p n else false.
Proof. reflexivity. Qed.

Lemma startswith_sep_nosep (name : string) :
  PyString.contains PyString.sep name = false -> PyString.startswith name "/" = false.
Proof.
  destruct name as [|c n]; [reflexivity|]. intros H. simpl in H.
  apply orb_false_elim in H as [Hc _].
  unfold PyString.startswith. rewrite prefix_cons.
  destruct (ascii_dec "/" c) as [<-|]; [discriminate Hc | reflexivity].
Qed.

(** The base name of [os.path.join(d, name)] is [name] again. *)
Lemma basename_path_join (d name : string) :
  PyString.contains PyString.sep name = false ->
  PyString.basename (PyString.path_join d name) = name.
Proof.
  intros Hn. unfold PyString.path_join.
  rewrite (startswith_sep_nosep name Hn).
  destruct (String.eqb d "") eqn:Ed; simpl.
  - apply String.eqb_eq in Ed. subst d. apply basename_nosep. exact Hn.
  - destruct (PyString.endswith d "/") eqn:Ee.
    + destruct (endswith_sep_inv d Ee) as [d' ->].
      rewrite append_assoc. change ("/" +:+ name) with (String PyString.sep name).
      rewrite basename_after_sep. apply basename_nosep. exact Hn.
    + change ("/" +:+ name) with (String PyString.sep name).
      rewrite basename_after_sep. apply basename_nosep. exact Hn.
Qed.

(** ** The monad *)

Lemma bind_ok {A B} (c : M A) (k : A -> M B) (w w' : World) (a : A) :
  c w = (Ok a, w') -> bind c k w = k a w'.
Proof. intros H. unfold bind. rewrite H. reflexivity. Qed.

Lemma bind_raise {A B} (c : M A) (k : A -> M B) (w w' : World) (e : exn) :
  c w = (Raise e, w') -> bind c k w = (Raise e, w').
Proof. intros H. unfold bind. rewrite H. reflexivity. Qed.

Lemma log_log (es fs : list Event) (w : World) :
  log fs (log es w) = log (es ++ fs) w.
Proof. unfold log; simpl. rewrite <- app_assoc. reflexivity. Qed.

Lemma log_nil (w : World) : log [] w = w.
Proof. destruct w; unfold log; simpl. rewrite app_nil_r. reflexivity. Qed.

(** A loop that only prints. *)
Lemma for_each_print {A} (f : A -> pyval) (xs : list A) (w : World) :
  for_each xs (fun x => print (f x)) w = (Ok tt, log (map (fun x => EPrint (f x)) xs) w).
Proof.
  revert w. induction xs as [|x r IH]; intros w; simpl.
  - unfold ret. rewrite log_nil. reflexivity.
  - unfold bind, print, emit. rewrite IH, log_log. reflexivity.
Qed.

Lemma write_file_ok (p : string) (c : FileContent) (w : World) :
  writable p w = true -> write_file p c w = (Ok tt, put_file p c w).
Proof.
  unfold writable, write_file. intros H.
  apply andb_prop in H as [H1 H2].
  destruct (bool_decide (p ∈ w_dirs w)); [discriminate|].
  rewrite H2. reflexivity.
Qed.

(** Whatever a write does, a successful one stores the file. *)
Lemma write_file_inv (p : string) (c : FileContent) (w w' : World) (r : Res unit) :
  write_file p c w = (r, w') ->
  (r = Ok tt /\ w' = put_file p c w) \/ (exists e, r = Raise e /\ w' = w).
Proof.
  unfold write_file. intros H.
  destruct (bool_decide (p ∈ w_dirs w)).
  - right. inversion H. eauto.
  - destruct (parent_exists p w); inversion H; eauto.
Qed.

(** ** The set of issues *)

Section IssueSet.

Variable same : Bandit.Issue -> Bandit.Issue -> bool.

Abbreviation set_add' := (set_add same).
Abbreviation py_set' := (py_set same).

Lemma set_add_grows (s : list Bandit.Issue) (x : Bandit.Issue) :
  exists t, set_add' s x = s ++ t.
Proof.
  unfold set_add.
  destruct (existsb _ s); [exists []; rewrite app_nil_r | exists [x]]; reflexivity.
Qed.

Lemma fold_set_add_grows (l s : list Bandit.Issue) :
  exists t, fold_left set_add' l s = s ++ t.
Proof.
  revert s. induction l as [|x l IH]; intros s; simpl.
  - exists []. rewrite app_nil_r. reflexivity.
  - destruct (set_add_grows s x) as [t Ht]. rewrite Ht.
    destruct (IH (s ++ t)) as [u Hu]. exists (t ++ u).
    rewrite Hu, <- app_assoc. reflexivity.
Qed.

(** The set is empty exactly when the list is. *)
Lemma py_set_nil (l : list Bandit.Issue) : py_set' l = [] <-> l = [].
Proof.
  split; [|intros ->; reflexivity].
  destruct l as [|x l]; [reflexivity|].
  unfold py_set; simpl. unfold set_add at 2; simpl.
  destruct (fold_set_add_grows l [x]) as [t Ht]. rewrite Ht. discriminate.
Qed.

(** Every element of the set comes from the list. *)
Lemma fold_set_add_In (l s : list Bandit.Issue) (x : Bandit.Issue) :
  In x (fold_left set_add' l s) -> In x s \/ In x l.
Proof.
  revert s. induction l as [|y l IH]; intros s H; simpl in *; [tauto|].
  apply IH in H as [H|H]; [|tauto].
  unfold set_add in H. destruct (existsb _ s); [tauto|].
  apply in_app_or in H as [H|[H|[]]]; tauto.
Qed.

Lemma py_set_In (l : list Bandit.Issue) (x : Bandit.Issue) :
  In x (py_set' l) -> In x l.
Proof. intros H. apply fold_set_add_In in H as [[]|H]. exact H. Qed.

Lemma apart_snoc (s : list Bandit.Issue) (x : Bandit.Issue) :
  apart same s -> existsb (fun y => same y x) s = false -> apart same (s ++ [x]).
Proof.
  intros Hs Hx s1 y1 s2 y2 s3 E.
  induction s3 as [|z s3 _] using rev_ind.
  - replace (s1 ++ y1 :: s2 ++ [y2]) with ((s1 ++ y1 :: s2) ++ [y2]) in E
      by (rewrite <- app_assoc; reflexivity).
    apply app_inj_tail in E as [E <-]. subst s.
    destruct (same y1 x) eqn:S1; [|reflexivity].
    assert (existsb (fun y => same y x) (s1 ++ y1 :: s2) = true) as C.
    { apply existsb_exists. exists y1. split; [|exact S1].
      apply in_or_app. right. left. reflexivity. }
    congruence.
  - replace (s1 ++ y1 :: s2 ++ y2 :: s3 ++ [z])
      with ((s1 ++ y1 :: s2 ++ y2 :: s3) ++ [z]) in E
      by (rewrite <- !app_assoc; simpl; rewrite <- app_assoc; reflexivity).
    apply app_inj_tail in E as [E _]. exact (Hs _ _ _ _ _ E).
Qed.

Lemma fold_set_add_apart (l s : list Bandit.Issue) :
  apart same s -> apart same (fold_left set_add' l s).
Proof.
  revert s. induction l as [|x l IH]; intros s Hs; simpl; [exact Hs|].
  apply IH. unfold set_add.
  destruct (existsb _ s) eqn:E; [exact Hs | apply apart_snoc; assumption].
Qed.

Lemma py_set_apart (l : list Bandit.Issue) : apart same (py_set' l).
Proof.
  apply fold_set_add_apart. intros s1 y1 s2 y2 s3 E.
  destruct s1; discriminate.
Qed.

Lemma kept_for_app (x : Bandit.Issue) (s t : list Bandit.Issue) :
  kept_for same x (s ++ t) = kept_for same x s ++ kept_for same x t.
Proof. unfold kept_for. apply List.filter_app. Qed.

Lemma kept_for_nil (x : Bandit.Issue) (s : list Bandit.Issue) :
  kept_for same x s = [] <-> existsb (fun y => same y x) s = false.
Proof.
  unfold kept_for. induction s as [|y s IH]; simpl; [tauto|].
  destruct (same y x); simpl; [split; discriminate | exact IH].
Qed.

Hypothesis same_equiv : is_equivalence same.

(** Entries that take [x] for the same take everything [x] stands for. *)
Lemma kept_for_ext (a b : Bandit.Issue) (s : list Bandit.Issue) :
  same a b = true -> kept_for same a s = kept_for same b s.
Proof.
  destruct same_equiv as (Hr & Hs & Ht). intros Hab.
  unfold kept_for. apply List.filter_ext. intros y.
  destruct (same y a) eqn:Ea, (same y b) eqn:Eb; try reflexivity.
  - rewrite (Ht _ _ _ Ea Hab) in Eb. discriminate.
  - rewrite (Ht _ _ _ Eb (Hs _ _ Hab)) in Ea. discriminate.
Qed.

(** One step keeps at most one entry per element and one for the
    element it adds. *)
Lemma set_add_kept (s : list Bandit.Issue) (x0 : Bandit.Issue) :
  (forall x, length (kept_for same x s) <= 1)%nat ->
  (forall x, length (kept_for same x (set_add' s x0)) <= 1)%nat
  /\ length (kept_for same x0 (set_add' s x0)) = 1%nat
  /\ (forall x, length (kept_for same x s) <= length (kept_for same x (set_add' s x0)))%nat.
Proof.
  destruct same_equiv as (Hr & Hs & Ht). intros Hle.
  unfold set_add. destruct (existsb _ s) eqn:E.
  - split; [exact Hle|]. split; [|intros; lia].
    specialize (Hle x0). destruct (kept_for same x0 s) eqn:K; [|simpl in *; lia].
    apply kept_for_nil in K. congruence.
  - assert (kept_for same x0 s = []) as K0 by (apply kept_for_nil; exact E).
    split; [|split].
    + intros x. rewrite kept_for_app, length_app. unfold kept_for at 2; simpl.
      destruct (same x0 x) eqn:Ex; simpl; [|specialize (Hle x); lia].
      rewrite <- (kept_for_ext x0 x s Ex), K0. simpl. lia.
    + rewrite kept_for_app, K0. unfold kept_for; simpl. rewrite Hr. reflexivity.
    + intros x. rewrite kept_for_app, length_app. lia.
Qed.

Lemma fold_set_add_kept (l s : list Bandit.Issue) :
  (forall x, length (kept_for same x s) <= 1)%nat ->
  (forall x, length (kept_for same x (fold_left set_add' l s)) <= 1)%nat
  /\ (forall x, In x l -> length (kept_for same x (fold_left set_add' l s)) = 1%nat)
  /\ (forall x, length (kept_for same x s)
                 <= length (kept_for same x (fold_left set_add' l s)))%nat.
Proof.
  revert s. induction l as [|x0 l IH]; intros s Hle; simpl.
  - split; [exact Hle|]. split; [intros ? []|intros; lia].
  - destruct (set_add_kept s x0 Hle) as (H1 & H2 & H3).
    destruct (IH _ H1) as (I1 & I2 & I3).
    split; [exact I1|]. split.
    + intros x [<-|Hx]; [|apply I2; exact Hx].
      pose proof (I1 x0). pose proof (I3 x0). lia.
    + intros x. specialize (H3 x). specialize (I3 x). lia.
Qed.

(** Every issue of the list is kept exactly once. *)
Lemma py_set_kept_once (l : list Bandit.Issue) (x : Bandit.Issue) :
  In x l -> length (kept_for same x (py_set' l)) = 1%nat.
Proof.
  intros Hx. apply (fold_set_add_kept l []); [|exact Hx].
  intros y. simpl. lia.
Qed.

End IssueSet.

(** ** The frame of a report *)

Lemma format_issue_cells (issue : Bandit.Issue) :
  format_issue issue = combine report_columns (cells issue).
Proof. reflexivity. Qed.

Lemma columns_of_issues (u : list Bandit.Issue) (cols : list string) :
  cols = [] \/ cols = report_columns ->
  u <> [] ->
  fold_left Pandas.add_keys (map format_issue u) cols = report_columns.
Proof.
  revert cols. induction u as [|i u IH]; intros cols Hc Hne; [contradiction|].
  simpl. assert (Pandas.add_keys cols (format_issue i) = report_columns) as ->
    by (destruct Hc as [-> | ->]; reflexivity).
  destruct u as [|j u]; [reflexivity|].
  apply IH; [right; reflexivity | discriminate].
Qed.

Lemma from_records_issues (u : list Bandit.Issue) :
  u <> [] ->
  Pandas.from_records (map format_issue u)
  = {| Pandas.columns := report_columns; Pandas.values := map cells u |}.
Proof.
  intros Hne. unfold Pandas.from_records.
  rewrite (columns_of_issues u []); [|left; reflexivity|exact Hne].
  f_equal. rewrite map_map. apply map_ext. intros i. reflexivity.
Qed.

(** With at least one issue the file starts with the column names and
    goes on with one row per issue of the set. *)
Lemma report_rows_cons same (issues : list Bandit.Issue) :
  issues <> [] ->
  report_rows same issues = map PyStr report_columns :: map cells (py_set same issues).
Proof.
  intros Hne. unfold report_rows, issues_data.
  rewrite from_records_issues; [reflexivity|].
  intros E. apply py_set_nil in E. contradiction.
Qed.

(** With no issue the frame has no column: the file holds one row without
    any cell. *)
Lemma report_rows_nil same : report_rows same [] = [[]].
Proof. reflexivity. Qed.

Lemma report_rows_data same (issues : list Bandit.Issue) :
  tail (report_rows same issues) = map cells (py_set same issues).
Proof.
  destruct issues as [|i l]; [reflexivity|].
  rewrite report_rows_cons; [reflexivity | discriminate].
Qed.

Lemma save_compliance_report_ok same (issues : list Bandit.Issue)
      (output_file : string) (w : World) :
  writable output_file w = true ->
  save_compliance_report same issues output_file w
  = (Ok tt, log [EPrint (PyStr ("Issues saved to '" +:+ output_file +:+ "'"))]
                (put_file output_file (Table (report_rows same issues)) w)).
Proof.
  intros Hw. unfold save_compliance_report, Pandas.to_csv.
  rewrite (bind_ok _ _ _ _ _ (write_file_ok _ _ _ Hw)). reflexivity.
Qed.

(** ** Retrieval *)

(** The status test of [get_file_list_recursive] compares a number with
    the string ['200']: it fails on every response. *)
Lemma status_test_fails (code : Z) : py_eq_str (PyInt code) "200" = false.
Proof. reflexivity. Qed.

Lemma get_file_list_recursive_raises remote (u : string) (r : Response)
      (file_list : list pyval) (w : World) :
  remote u = Some r ->
  get_file_list_recursive remote (PyStr u) file_list w
  = (Raise (AssertionError (text r)), log [EGet (PyStr u)] w).
Proof.
  intros Hr. unfold get_file_list_recursive, requests_get, bind, emit.
  rewrite Hr. reflexivity.
Qed.

Lemma get_first_level_files_raises remote (u : string) (r : Response) (w : World) :
  remote u = Some r ->
  get_first_level_files remote (PyStr u) w
  = (Raise (AssertionError (text r)), log [EGet (PyStr u)] w).
Proof.
  intros Hr. unfold get_first_level_files, requests_get, bind, emit.
  rewrite Hr. reflexivity.
Qed.

(** C1. Retrieval and the status code of the listing response, at a
    response whose status code is the number 200 and at one whose status
    code is 404. The listing function that tests the status raises
    [AssertionError] on the successful response, with the body as its
    message; the download function, which the pipeline calls, never looks
    at the status and goes through on the 404 response. *)
Theorem C1_status_check_at_200_and_404 :
  status_code (Demo.json_response 200 (PyList [])) = 200
  /\ get_file_list_recursive Demo.remote (PyStr Demo.empty_url) [] empty_world
     = (Raise (AssertionError "[]"), log [EGet (PyStr Demo.empty_url)] empty_world)
  /\ Demo.remote Demo.gone_url = Some (Demo.json_response 404 (PyList []))
  /\ fst (download_files Demo.remote (PyStr Demo.gone_url) "temp" empty_world) = Ok tt.
Proof.
  split; [reflexivity|]. split; [|split; [reflexivity|]].
  - apply (get_file_list_recursive_raises Demo.remote Demo.empty_url
             (Demo.json_response 200 (PyList []))). reflexivity.
  - vm_compute. reflexivity.
Qed.

(** The body the host sends with a 404 is an object, not a list: the loop
    of [download_files] runs over its keys and fails on the first one, for
    a reason that has nothing to do with the status. *)
Example download_files_not_found_body :
  fst (download_files Demo.remote (PyStr Demo.missing_url) "temp" empty_world)
  = Raise TypeError.
Proof. vm_compute. reflexivity. Qed.

(** A directory entry is skipped for its name only: one whose name ends
    in [.py] is taken for a file, and its missing download address ends
    the run. *)
Example download_files_directory_named_like_a_file :
  fst (download_files Demo.remote (PyStr Demo.odd_url) "temp" empty_world)
  = Raise MissingSchema.
Proof. vm_compute. reflexivity. Qed.

(** C2. Retrieval at the listing with the file [a.py] and the directory
    [pkg] that holds [b.py]. The download function stages [a.py] with its
    content and nothing else: the directory entry is skipped for its name
    and its listing is never requested, so [b.py] is not staged. The
    listing function that was to recurse raises on the first response. *)
Theorem C2_directory_entry_not_recursed :
  exists w,
    download_files Demo.remote (PyStr Demo.api_url) "temp" empty_world = (Ok tt, w)
    /\ w_files w = {[ "temp/a.py" := Text Demo.a_source ]}
    /\ w_files w !! "temp/b.py" = None
    /\ ~ In (EGet (PyStr Demo.pkg_url)) (w_trace w)
    /\ exists msg,
         fst (get_file_list_recursive Demo.remote (PyStr Demo.api_url) [] empty_world)
         = Raise (AssertionError msg).
Proof.
  eexists. split; [vm_compute; reflexivity|].
  split; [vm_compute; reflexivity|].
  split; [vm_compute; reflexivity|].
  split.
  - simpl. intros H. repeat (destruct H as [H|H]; [discriminate H|]). exact H.
  - eexists. rewrite (get_file_list_recursive_raises Demo.remote Demo.api_url
                        (Demo.json_response 200 Demo.listing)); reflexivity.
Qed.

(** ** The orchestrator *)

Section Orchestrator.

Variable remote : string -> option Response.
Variable Mgr : Type.
Variable mgr_new : Mgr.
Variable mgr_run : Mgr -> string -> option FileContent -> Mgr * option string.
Variable mgr_results : Mgr -> list Bandit.Issue.
Variable same : Bandit.Issue -> Bandit.Issue -> bool.

Abbreviation main' := (main remote Mgr mgr_new mgr_run mgr_results same).
Abbreviation scan' := (scan_directory Mgr mgr_new mgr_run mgr_results).

(** [main] after a download and a scan that went through. *)
Lemma main_after_scan (repo_url : pyval) (directory : string)
      (w w1 w2 : World) (issues : list Bandit.Issue) :
  download_files remote repo_url directory w = (Ok tt, w1) ->
  scan' directory w1 = (Ok issues, w2) ->
  main' repo_url directory w
  = match issues with
    | _ :: _ => save_compliance_report same issues "compliance_report.csv"
                  (log (issue_list issues) w2)
    | [] => (Ok tt, log (issue_list [] ++ [EPrint (PyStr "No issues found.")]) w2)
    end.
Proof.
  intros Hd Hs. unfold main.
  rewrite (bind_ok _ _ _ _ _ Hd), (bind_ok _ _ _ _ _ Hs).
  unfold bind at 1. unfold print at 1, emit at 1.
  unfold bind at 1. rewrite for_each_print.
  unfold bind at 1. unfold print at 1, emit at 1.
  rewrite !log_log. fold (issue_list issues).
  destruct issues as [|i l]; [|reflexivity].
  unfold print, emit. rewrite log_log. reflexivity.
Qed.

End Orchestrator.

(** C3. After a download and a scan that went through, the orchestrator
    looks at the issues. When normalization leaves none, it stores no
    file (the files are those the scan left) and its last line is
    [No issues found.]; when normalization leaves [N >= 1] findings and
    the report can be written, [compliance_report.csv] holds the header
    row followed by one row per normalized finding, [N + 1] rows. *)
Theorem C3_report_only_for_findings
    remote Mgr mgr_new mgr_run mgr_results same
    (repo_url : pyval) (directory : string) (w w1 w2 : World)
    (issues : list Bandit.Issue) :
  download_files remote repo_url directory w = (Ok tt, w1) ->
  scan_directory Mgr mgr_new mgr_run mgr_results directory w1 = (Ok issues, w2) ->
  let N := length (issues_data same issues) in
  (N = 0%nat ->
   exists w3,
     main remote Mgr mgr_new mgr_run mgr_results same repo_url directory w = (Ok tt, w3)
     /\ w_files w3 = w_files w2
     /\ last (w_trace w3) = Some (EPrint (PyStr "No issues found.")))
  /\ ((1 <= N)%nat ->
      writable "compliance_report.csv" w2 = true ->
      exists w3 rows,
        main remote Mgr mgr_new mgr_run mgr_results same repo_url directory w = (Ok tt, w3)
        /\ w_files w3 = <["compliance_report.csv" := Table rows]> (w_files w2)
        /\ rows = map PyStr report_columns :: map cells (py_set same issues)
        /\ length rows = (N + 1)%nat).
Proof.
  intros Hd Hs N.
  pose proof (main_after_scan remote Mgr mgr_new mgr_run mgr_results same
                _ _ _ _ _ _ Hd Hs) as Hm.
  subst N. unfold issues_data. rewrite length_map. split.
  - intros HN. apply length_zero_iff_nil, py_set_nil in HN. subst issues.
    eexists. split; [exact Hm|]. split; [reflexivity|].
    apply last_Some. eexists (w_trace w2 ++ [_; _]).
    simpl. rewrite <- app_assoc. reflexivity.
  - intros HN Hw. destruct issues as [|i l]; [simpl in HN; lia|].
    rewrite save_compliance_report_ok in Hm by exact Hw.
    eexists. exists (report_rows same (i :: l)). split; [exact Hm|].
    split; [reflexivity|].
    rewrite report_rows_cons by discriminate.
    split; [reflexivity|]. simpl. rewrite length_map. lia.
Qed.

Lemma C3_report_only_for_findings_witness :
  (exists w3 rows,
     main Demo.remote Demo.Mgr Demo.mgr_new Demo.mgr_run Demo.mgr_results
          Bandit.same_object (PyStr Demo.api_url) "temp" empty_world = (Ok tt, w3)
     /\ w_files w3 = <["compliance_report.csv" := Table rows]> (w_files Demo.scanned)
     /\ rows = map PyStr report_columns
               :: map cells (py_set Bandit.same_object [Demo.found 0 "temp/a.py"])
     /\ length rows
        = (length (issues_data Bandit.same_object [Demo.found 0 "temp/a.py"]) + 1)%nat)
  /\ (exists w3,
        main Demo.remote Demo.Mgr Demo.mgr_new Demo.mgr_run Demo.mgr_results
             Bandit.same_object (PyStr Demo.empty_url) "temp" empty_world = (Ok tt, w3)
        /\ w_files w3 = w_files Demo.scanned_nothing
        /\ last (w_trace w3) = Some (EPrint (PyStr "No issues found."))).
Proof.
  split.
  - apply (proj2 (C3_report_only_for_findings
                    Demo.remote Demo.Mgr Demo.mgr_new Demo.mgr_run Demo.mgr_results
                    Bandit.same_object (PyStr Demo.api_url) "temp"
                    empty_world Demo.staged Demo.scanned [Demo.found 0 "temp/a.py"]
                    ltac:(vm_compute; reflexivity) ltac:(vm_compute; reflexivity))).
    + simpl. lia.
    + vm_compute. reflexivity.
  - apply (proj1 (C3_report_only_for_findings
                    Demo.remote Demo.Mgr Demo.mgr_new Demo.mgr_run Demo.mgr_results
                    Bandit.same_object (PyStr Demo.empty_url) "temp"
                    empty_world Demo.staged_nothing Demo.scanned_nothing []
                    ltac:(vm_compute; reflexivity) ltac:(vm_compute; reflexivity))).
    reflexivity.
Defined.

(** ** The report writers *)

Lemma files_log (es : list Event) (w : World) : w_files (log es w) = w_files w.
Proof. reflexivity. Qed.

Lemma files_put_file (p : string) (c : FileContent) (w : World) :
  w_files (put_file p c w) !! p = Some c.
Proof. unfold put_file; simpl. apply lookup_insert_eq. Qed.

(** C4, as stated, fails for the primary writer at the empty sequence: the
    file is created, but it holds a single row without any cell, not the
    header row. *)
Lemma C4_counterexample :
  w_files (snd (save_compliance_report Bandit.same_object [] "compliance_report.csv"
                  empty_world)) !! "compliance_report.csv"
  = Some (Table [[]])
  /\ header_row (w_files (snd (save_compliance_report Bandit.same_object []
                                "compliance_report.csv" empty_world))
                 !! "compliance_report.csv")
     <> Some (map PyStr report_columns).
Proof.
  split; [vm_compute; reflexivity|].
  vm_compute. discriminate.
Qed.

(** C4, amended. On a path that can be written to, both writers create
    the output file. The workflow writer puts its fixed header row first
    for every sequence of data rows, the empty one included. The primary
    writer takes the header from the keys of the formatted issues: with at
    least one issue the file starts with [File, Line, Severity,
    Confidence, Issue]; with none the file holds one row without cells. *)
Theorem C4_writers_create_the_file
    same (issues : list Bandit.Issue) (csv_data : list (list pyval))
    (path : string) (w : World) :
  writable path w = true ->
  (exists w',
     Workflow.write_report path csv_data w = (Ok tt, w')
     /\ w_files w' !! path = Some (Table (map PyStr Workflow.headers :: csv_data)))
  /\ (exists w',
        save_compliance_report same issues path w = (Ok tt, w')
        /\ w_files w' !! path = Some (Table (report_rows same issues))
        /\ (issues <> [] ->
            header_row (w_files w' !! path) = Some (map PyStr report_columns))
        /\ (issues = [] -> report_rows same issues = [[]])).
Proof.
  intros Hw. split.
  - eexists. split.
    + unfold Workflow.write_report. apply write_file_ok. exact Hw.
    + apply files_put_file.
  - eexists. split; [apply save_compliance_report_ok; exact Hw|].
    rewrite files_log, files_put_file.
    split; [reflexivity|]. split.
    + intros Hne. rewrite report_rows_cons by exact Hne. reflexivity.
    + intros ->. reflexivity.
Qed.

Lemma C4_writers_create_the_file_witness :
  writable "compliance_report.csv" empty_world = true
  /\ (exists w',
        Workflow.write_report "compliance_report.csv" [] empty_world = (Ok tt, w')
        /\ w_files w' !! "compliance_report.csv"
           = Some (Table (map PyStr Workflow.headers :: [])))
  /\ (exists w',
        save_compliance_report Bandit.same_object [Demo.first_run]
          "compliance_report.csv" empty_world = (Ok tt, w')
        /\ w_files w' !! "compliance_report.csv"
           = Some (Table (report_rows Bandit.same_object [Demo.first_run]))
        /\ ([Demo.first_run] <> [] ->
            header_row (w_files w' !! "compliance_report.csv")
            = Some (map PyStr report_columns))
        /\ ([Demo.first_run] = [] ->
            report_rows Bandit.same_object [Demo.first_run] = [[]])).
Proof.
  split; [vm_compute; reflexivity|].
  apply (C4_writers_create_the_file Bandit.same_object [Demo.first_run] []
           "compliance_report.csv" empty_world).
  vm_compute. reflexivity.
Defined.

(** ** Normalization *)

Lemma same_object_equivalence : is_equivalence Bandit.same_object.
Proof.
  unfold is_equivalence, Bandit.same_object. split; [|split].
  - intros a. apply Nat.eqb_refl.
  - intros a b H. apply Nat.eqb_eq in H. apply Nat.eqb_eq. congruence.
  - intros a b c H1 H2. apply Nat.eqb_eq in H1, H2. apply Nat.eqb_eq. congruence.
Qed.

(** C5, as stated, fails: two issue objects from separate invocations that
    agree on file, line, severity, confidence and message are two elements
    of the set, and normalization yields two findings for them. *)
Lemma C5_counterexample :
  Bandit.same_fields Demo.first_run Demo.second_run = true
  /\ py_set Bandit.same_object [Demo.first_run; Demo.second_run]
     = [Demo.first_run; Demo.second_run]
  /\ issues_data Bandit.same_object [Demo.first_run; Demo.second_run]
     = [format_issue Demo.first_run; format_issue Demo.second_run]
  /\ length (issues_data Bandit.same_object [Demo.first_run; Demo.second_run]) <> 1%nat.
Proof.
  split; [reflexivity|]. split; [reflexivity|]. split; [reflexivity|].
  simpl. discriminate.
Qed.

(** C5, amended. Normalization removes duplicates as the set of issue
    objects sees them: when the test of the Issue class behaves as an
    equality, two raw findings it takes for the same (the same object
    reported twice, in particular) are represented by exactly one element
    of the set, hence by one finding. *)
Theorem C5_one_finding_per_set_element
    same (issues : list Bandit.Issue) (a b : Bandit.Issue) :
  is_equivalence same ->
  In a issues -> In b issues -> same a b = true ->
  exists y,
    kept_for same a (py_set same issues) = [y]
    /\ kept_for same b (py_set same issues) = [y]
    /\ In (format_issue y) (issues_data same issues).
Proof.
  intros He Ha Hb Hab.
  pose proof (py_set_kept_once same He issues a Ha) as H1.
  destruct (kept_for same a (py_set same issues)) as [|y [|z r]] eqn:K;
    simpl in H1; try lia.
  exists y. split; [reflexivity|]. split.
  - rewrite <- (kept_for_ext same He a b _ Hab). exact K.
  - unfold issues_data. apply in_map.
    assert (In y (kept_for same a (py_set same issues))) as Hy
      by (rewrite K; left; reflexivity).
    unfold kept_for in Hy. apply List.filter_In in Hy. tauto.
Qed.

Lemma C5_one_finding_per_set_element_witness :
  exists y,
    kept_for Bandit.same_object Demo.first_run
      (py_set Bandit.same_object [Demo.first_run; Demo.second_run; Demo.first_run]) = [y]
    /\ kept_for Bandit.same_object Demo.first_run
         (py_set Bandit.same_object [Demo.first_run; Demo.second_run; Demo.first_run]) = [y]
    /\ In (format_issue y)
          (issues_data Bandit.same_object
             [Demo.first_run; Demo.second_run; Demo.first_run]).
Proof.
  apply (C5_one_finding_per_set_element Bandit.same_object
           [Demo.first_run; Demo.second_run; Demo.first_run]
           Demo.first_run Demo.first_run same_object_equivalence).
  - simpl. left. reflexivity.
  - simpl. left. reflexivity.
  - reflexivity.
Defined.

(** C6, as stated, fails: two issues in files of the same name in two
    directories give two identical rows, whether the set tells issues
    apart by their attributes or by their identity. *)
Lemma C6_counterexample :
  Bandit.fname Demo.in_pkg1 <> Bandit.fname Demo.in_pkg2
  /\ ~ NoDup (report_rows Bandit.same_fields [Demo.in_pkg1; Demo.in_pkg2])
  /\ ~ NoDup (report_rows Bandit.same_object [Demo.in_pkg1; Demo.in_pkg2]).
Proof.
  split; [discriminate|].
  split; intros H; vm_compute in H;
    inversion H as [|? ? _ H1]; subst;
    inversion H1 as [|? ? H2 _]; subst;
    apply H2; left; reflexivity.
Qed.

(** C6, amended. The data rows of a report are the rows of the elements
    of the set of issues, in order: every element is an issue of the
    input, no element takes a later one for the same, and the header row
    differs from every data row. Rows are not compared with each other. *)
Theorem C6_rows_one_per_set_element same (issues : list Bandit.Issue) :
  tail (report_rows same issues) = map cells (py_set same issues)
  /\ apart same (py_set same issues)
  /\ (forall x, In x (py_set same issues) -> In x issues)
  /\ (forall row, In row (tail (report_rows same issues)) ->
                  head (report_rows same issues) <> Some row).
Proof.
  split; [apply report_rows_data|].
  split; [apply py_set_apart|].
  split; [intros x; apply py_set_In|].
  intros row Hrow. destruct issues as [|i l]; [destruct Hrow|].
  rewrite report_rows_cons in * by discriminate. simpl in *.
  apply in_map_iff in Hrow as (x & <- & _). discriminate.
Qed.

(** ** The temporary clone of the workflow script *)

Lemma bind_inv_ok {A B} (c : M A) (k : A -> M B) (w w' : World) (b : B) :
  bind c k w = (Ok b, w') -> exists a w1, c w = (Ok a, w1) /\ k a w1 = (Ok b, w').
Proof.
  unfold bind. destruct (c w) as [[a|e] w1]; intros H; [eauto | discriminate].
Qed.

Lemma under_self (d : string) : under d d = true.
Proof. unfold under. rewrite String.eqb_refl. reflexivity. Qed.

(** [rmtree], when it returns, leaves no trace of the directory. *)
Lemma rmtree_removes (d : string) (w w' : World) :
  rmtree d w = (Ok tt, w') -> d ∉ w_dirs w'.
Proof.
  unfold rmtree. destruct (bool_decide (d ∈ w_dirs w)); [|discriminate].
  intros H. inversion H; subst; clear H. simpl.
  intros Hin. apply elem_of_filter in Hin as [Hu _].
  rewrite under_self in Hu. discriminate.
Qed.

(** When the analysis returns normally, the clone directory is gone. *)
Lemma run_bandit_returns_clean run_process (target_path output_dir : string)
      (w w' : World) :
  Workflow.run_bandit run_process target_path output_dir w = (Ok tt, w') ->
  exists temp_dir w1,
    mkdtemp w = (Ok temp_dir, w1) /\ temp_dir ∈ w_dirs w1 /\ temp_dir ∉ w_dirs w'.
Proof.
  unfold Workflow.run_bandit. intros H.
  apply bind_inv_ok in H as (temp_dir & w1 & Hmk & H).
  exists temp_dir, w1. split; [exact Hmk|]. split.
  - unfold mkdtemp in Hmk. inversion Hmk; subst; simpl. set_solver.
  - repeat (apply bind_inv_ok in H as (? & ? & _ & H)).
    exact (rmtree_removes _ _ _ H).
Qed.

Example run_bandit_reporting :
  exists w,
    Workflow.run_bandit Demo.reporting "https://github.com/o/r" "" empty_world = (Ok tt, w)
    /\ w_dirs w = ∅
    /\ header_row (w_files w !! "compliance_report.csv")
       = Some (map PyStr Workflow.headers).
Proof.
  eexists. split; [vm_compute; reflexivity|].
  split; vm_compute; reflexivity.
Qed.

(** C7. The analysis of the workflow script at an engine that prints
    nothing on its standard output: decoding the output raises, the error
    leaves [run_bandit], and the clone directory created at the start is
    still there. The removal is the last statement of the function and is
    not reached. *)
Theorem C7_clone_left_behind_on_error :
  exists w,
    Workflow.run_bandit Demo.silent "https://github.com/o/r" "out" empty_world
    = (Raise JSONDecodeError, w)
    /\ mkdtemp empty_world
       = (Ok "/tmp/tmp0", snd (mkdtemp empty_world))
    /\ "/tmp/tmp0" ∈ w_dirs w
    /\ w_trace w = [ERun ["git"; "clone"; "https://github.com/o/r"; "/tmp/tmp0"];
                    ERun ["bandit"; "-r"; "/tmp/tmp0"; "-f"; "json"]].
Proof.
  eexists. split; [vm_compute; reflexivity|].
  split; [vm_compute; reflexivity|].
  split; [|vm_compute; reflexivity].
  refine (bool_decide_eq_true_1 _ _). vm_compute. reflexivity.
Qed.

(** ** Resolution and the entry point *)

(** A reference without the host prefix: the handler prints the message,
    and the script goes on to [main] with [None] for the endpoint. *)
Lemma script_goes_on_after_ValueError
      remote Mgr mgr_new mgr_run mgr_results same (prog url : string) (w : World) :
  PyString.startswith url github_prefix = false ->
  script remote Mgr mgr_new mgr_run mgr_results same [prog; url] w
  = (Raise MissingSchema, log [EPrint (PyStr "Invalid GitHub URL"); EGet PyNone] w).
Proof.
  intros Hp. unfold script. cbn [length Nat.eqb negb nth].
  unfold bind at 1. unfold except_ValueError.
  unfold bind at 1. unfold lift, convert_github_url_to_api. rewrite Hp. cbn [negb].
  unfold bind at 1. unfold print, emit, ret.
  unfold main, download_files, requests_get, bind, emit, raise.
  rewrite log_log. reflexivity.
Qed.

(** C8. The entry point at a reference that does not start with the host
    prefix: resolution raises [ValueError], the message is printed, and
    the run goes on: [main] is called with [None] and the retrieval step
    issues its request, which is what ends the run. *)
Theorem C8_run_goes_on_after_invalid_reference :
  convert_github_url_to_api "http://example.com/o/r"
  = Raise (ValueError "Invalid GitHub URL")
  /\ script Demo.remote Demo.Mgr Demo.mgr_new Demo.mgr_run Demo.mgr_results
       Bandit.same_object ["compliance_check.py"; "http://example.com/o/r"] empty_world
     = (Raise MissingSchema,
        log [EPrint (PyStr "Invalid GitHub URL"); EGet PyNone] empty_world)
  /\ fst (download_files Demo.remote PyNone "temp"
            (log [EPrint (PyStr "Invalid GitHub URL")] empty_world))
     = Raise MissingSchema.
Proof.
  split; [reflexivity|]. split; [|reflexivity].
  apply script_goes_on_after_ValueError. reflexivity.
Qed.

(** A reference with the prefix and one segment: the assertion is not a
    [ValueError], it leaves the script at once. *)
Example script_stops_on_AssertionError :
  script Demo.remote Demo.Mgr Demo.mgr_new Demo.mgr_run Demo.mgr_results
    Bandit.same_object ["compliance_check.py"; "https://github.com/owner"] empty_world
  = (Raise (AssertionError "Looks like an invalid('/')"), empty_world).
Proof. reflexivity. Qed.

(** Empty pieces count as segments. *)
Example convert_trailing_separator :
  convert_github_url_to_api "https://github.com/owner/"
  = Ok "https://api.github.com/repos/owner//contents/".
Proof. reflexivity. Qed.

Example convert_repository :
  convert_github_url_to_api "https://github.com/o/r"
  = Ok "https://api.github.com/repos/o/r/contents/".
Proof. reflexivity. Qed.

(** C9, as stated, fails: a reference with the prefix whose remaining
    path names an owner and no repository ([owner/]), or neither
    ([/]), has fewer than two segments, and resolution accepts it: the
    pieces of the split are counted, empty ones included. *)
Lemma C9_counterexample :
  PyString.startswith "https://github.com/owner/" github_prefix = true
  /\ repo_path "https://github.com/owner/" = ["owner"; ""]
  /\ convert_github_url_to_api "https://github.com/owner/"
     = Ok "https://api.github.com/repos/owner//contents/"
  /\ repo_path "https://github.com//" = [""; ""]
  /\ convert_github_url_to_api "https://github.com//"
     = Ok "https://api.github.com/repos///contents/".
Proof. repeat split; reflexivity. Qed.

(** C9, amended. A reference that does not start with
    [https://github.com/] makes [convert_github_url_to_api] raise
    [ValueError]; a reference with the prefix whose remaining path holds
    no separator — which is when it splits into fewer than two pieces —
    makes it raise through its assertion. Resolution issues no request: in
    a run of the script on a reference of the second kind the exception
    leaves the world as it was, and on one of the first kind the first
    thing that happens is the printing of the message. *)
Theorem C9_resolve_rejects_malformed
    remote Mgr mgr_new mgr_run mgr_results same (prog url : string) (w : World) :
  (PyString.startswith url github_prefix = false ->
   convert_github_url_to_api url = Raise (ValueError "Invalid GitHub URL")
   /\ exists es,
        snd (script remote Mgr mgr_new mgr_run mgr_results same [prog; url] w)
        = log (EPrint (PyStr "Invalid GitHub URL") :: es) w)
  /\ (PyString.startswith url github_prefix = true ->
      PyString.contains PyString.sep
        (PyString.drop (String.length github_prefix) url) = false ->
      convert_github_url_to_api url
      = Raise (AssertionError "Looks like an invalid('/')")
      /\ script remote Mgr mgr_new mgr_run mgr_results same [prog; url] w
         = (Raise (AssertionError "Looks like an invalid('/')"), w))
  /\ ((length (repo_path url) < 2)%nat
      <-> PyString.contains PyString.sep
            (PyString.drop (String.length github_prefix) url) = false).
Proof.
  assert (PyString.contains PyString.sep
            (PyString.drop (String.length github_prefix) url) = false ->
          repo_path url = [PyString.drop (String.length github_prefix) url]) as Hone.
  { intros Hc. unfold repo_path. apply split_on_nosep. exact Hc. }
  split; [|split].
  - intros Hp. split.
    + unfold convert_github_url_to_api. rewrite Hp. reflexivity.
    + exists [EGet PyNone].
      rewrite (script_goes_on_after_ValueError remote Mgr mgr_new mgr_run mgr_results
                 same prog url w Hp). reflexivity.
  - intros Hp Hc.
    assert (convert_github_url_to_api url
            = Raise (AssertionError "Looks like an invalid('/')")) as Hconv.
    { unfold convert_github_url_to_api. rewrite Hp, (Hone Hc). reflexivity. }
    split; [exact Hconv|].
    unfold script. cbn [length Nat.eqb negb nth].
    unfold bind at 1. unfold except_ValueError.
    unfold bind at 1. unfold lift. rewrite Hconv. reflexivity.
  - split.
    + intros Hlen.
      destruct (PyString.contains PyString.sep
                  (PyString.drop (String.length github_prefix) url)) eqn:Hc;
        [|reflexivity].
      unfold repo_path in Hlen.
      pose proof (split_on_two _ _ Hc) as H2. unfold PyString.sep in H2. lia.
    + intros Hc. rewrite (Hone Hc). simpl. lia.
Qed.

Lemma C9_resolve_rejects_malformed_witness :
  (convert_github_url_to_api "http://example.com/o/r"
   = Raise (ValueError "Invalid GitHub URL")
   /\ exists es,
        snd (script Demo.remote Demo.Mgr Demo.mgr_new Demo.mgr_run Demo.mgr_results
               Bandit.same_object ["compliance_check.py"; "http://example.com/o/r"]
               empty_world)
        = log (EPrint (PyStr "Invalid GitHub URL") :: es) empty_world)
  /\ (convert_github_url_to_api "https://github.com/owner"
      = Raise (AssertionError "Looks like an invalid('/')")
      /\ script Demo.remote Demo.Mgr Demo.mgr_new Demo.mgr_run Demo.mgr_results
           Bandit.same_object ["compliance_check.py"; "https://github.com/owner"]
           empty_world
         = (Raise (AssertionError "Looks like an invalid('/')"), empty_world)).
Proof.
  split.
  - apply (proj1 (C9_resolve_rejects_malformed Demo.remote Demo.Mgr Demo.mgr_new
                    Demo.mgr_run Demo.mgr_results Bandit.same_object
                    "compliance_check.py" "http://example.com/o/r" empty_world)).
    reflexivity.
  - apply (proj1 (proj2 (C9_resolve_rejects_malformed Demo.remote Demo.Mgr Demo.mgr_new
                           Demo.mgr_run Demo.mgr_results Bandit.same_object
                           "compliance_check.py" "https://github.com/owner"
                           empty_world))); reflexivity.
Defined.

(** ** The rows of the primary report *)



(** * Further properties of the scripts *)

(** ** Computations that keep a relation *)

Section Preserves.

Variable R : World -> World -> Prop.
Hypothesis R_refl : forall w, R w w.
Hypothesis R_trans : forall w1 w2 w3, R w1 w2 -> R w2 w3 -> R w1 w3.

Lemma preserves_ret {A} (a : A) : preserves R (ret a).
Proof. intros w. apply R_refl. Qed.

Lemma preserves_raise {A} (e : exn) : preserves R (@raise A e).
Proof. intros w. apply R_refl. Qed.

Lemma preserves_lift {A} (r : Res A) : preserves R (lift r).
Proof. intros w. apply R_refl. Qed.

Lemma preserves_bind {A B} (c : M A) (k : A -> M B) :
  preserves R c -> (forall a, preserves R (k a)) -> preserves R (bind c k).
Proof.
  intros Hc Hk w. unfold bind. specialize (Hc w).
  destruct (c w) as [[a|e] w1]; simpl in *; [|exact Hc].
  exact (R_trans _ _ _ Hc (Hk a w1)).
Qed.

Lemma preserves_for_each {A} (xs : list A) (body : A -> M unit) :
  (forall x, preserves R (body x)) -> preserves R (for_each xs body).
Proof.
  intros Hb. induction xs as [|x r IH]; simpl.
  - apply preserves_ret.
  - apply preserves_bind; [apply Hb | intros _; exact IH].
Qed.

Lemma preserves_for_fold {A S} (xs : list A) (s : S) (body : S -> A -> M S) :
  (forall s x, preserves R (body s x)) -> preserves R (for_fold xs s body).
Proof.
  intros Hb. revert s. induction xs as [|x r IH]; intros s; simpl.
  - apply preserves_ret.
  - apply preserves_bind; [apply Hb | intros s'; apply IH].
Qed.

End Preserves.

Lemma only_logs_refl (w : World) : only_logs w w.
Proof. exists []. symmetry. apply log_nil. Qed.

Lemma only_logs_trans (w1 w2 w3 : World) :
  only_logs w1 w2 -> only_logs w2 w3 -> only_logs w1 w3.
Proof. intros [es ->] [fs ->]. exists (es ++ fs). apply log_log. Qed.

Lemma keeps_other_files_refl (w : World) : keeps_other_files w w.
Proof. split; [set_solver | reflexivity]. Qed.

Lemma keeps_other_files_trans (w1 w2 w3 : World) :
  keeps_other_files w1 w2 -> keeps_other_files w2 w3 -> keeps_other_files w1 w3.
Proof.
  intros [D1 F1] [D2 F2]. split; [set_solver|].
  intros p Hp. rewrite (F2 p Hp). apply F1. exact Hp.
Qed.

Lemma keeps_other_files_log (es : list Event) (w : World) :
  keeps_other_files w (log es w).
Proof. split; [set_solver | reflexivity]. Qed.

(** ** The listing functions *)





(** ** The download *)

Lemma keeps_ret {A} (a : A) : preserves keeps_other_files (ret a).
Proof. apply preserves_ret, keeps_other_files_refl. Qed.

Lemma keeps_raise {A} (e : exn) : preserves keeps_other_files (@raise A e).
Proof. apply preserves_raise, keeps_other_files_refl. Qed.

Lemma keeps_lift {A} (r : Res A) : preserves keeps_other_files (lift r).
Proof. apply preserves_lift, keeps_other_files_refl. Qed.

Lemma keeps_bind {A B} (c : M A) (k : A -> M B) :
  preserves keeps_other_files c -> (forall a, preserves keeps_other_files (k a)) ->
  preserves keeps_other_files (bind c k).
Proof. apply preserves_bind, keeps_other_files_trans. Qed.

Lemma keeps_for_each {A} (xs : list A) (body : A -> M unit) :
  (forall x, preserves keeps_other_files (body x)) ->
  preserves keeps_other_files (for_each xs body).
Proof.
  apply preserves_for_each;
    [apply keeps_other_files_refl | apply keeps_other_files_trans].
Qed.

Lemma requests_get_keeps remote (url : pyval) :
  preserves keeps_other_files (requests_get remote url).
Proof.
  intros w. unfold requests_get, bind, emit.
  destruct url as [| | |u| |]; try apply keeps_other_files_log.
  destruct (remote u); apply keeps_other_files_log.
Qed.

Lemma response_json_keeps (r : Response) :
  preserves keeps_other_files (response_json r).
Proof. intros w. unfold response_json. destruct (json r); apply keeps_other_files_refl. Qed.

Lemma makedirs_keeps (p : string) : preserves keeps_other_files (makedirs p).
Proof.
  intros w. unfold makedirs. destruct (String.eqb p ""); simpl.
  - apply keeps_other_files_refl.
  - split; [simpl; set_solver | reflexivity].
Qed.

Lemma print_keeps (v : pyval) : preserves keeps_other_files (print v).
Proof. intros w. apply keeps_other_files_log. Qed.

(** A write under a name that ends in [.py] leaves the other files alone. *)
Lemma write_file_keeps (p : string) (c : FileContent) :
  PyString.endswith (PyString.lower p) ".py" = true ->
  preserves keeps_other_files (write_file p c).
Proof.
  intros Hp w. unfold write_file.
  destruct (bool_decide (p ∈ w_dirs w)); [apply keeps_other_files_refl|].
  destruct (parent_exists p w); [|apply keeps_other_files_refl].
  split; [simpl; set_solver|].
  intros q Hq. simpl. apply lookup_insert_ne. intros ->. congruence.
Qed.

(** The loop of [download_files], from the decoded listing on. *)
Lemma download_loop_keeps remote (local_dir : string) (files : pyval) :
  preserves keeps_other_files
    (items <- lift (py_iter files) ;;
     for_each items (fun file =>
       download_url <- lift (py_getitem file "download_url") ;;
       name <- lift (py_getitem file "name") ;;
       file_name <- join_name local_dir name ;;
       if negb (PyString.endswith (PyString.lower file_name) ".py") then
         print (PyStr ("Skipping file '" +:+ file_name +:+ "' as it is not a python file"))
       else
         print (PyStr ("Downloading to path '" +:+ file_name +:+ "'")) ;;;
         r <- requests_get remote download_url ;;
         write_file file_name (Text (text r)))).
Proof.
  apply keeps_bind; [apply keeps_lift | intros items].
  apply keeps_for_each. intros file.
  apply keeps_bind; [apply keeps_lift | intros download_url].
  apply keeps_bind; [apply keeps_lift | intros name].
  apply keeps_bind; [|intros file_name].
  { unfold join_name. destruct name; try apply keeps_raise. apply keeps_ret. }
  destruct (PyString.endswith (PyString.lower file_name) ".py") eqn:E; simpl.
  - apply keeps_bind; [apply print_keeps | intros _].
    apply keeps_bind; [apply requests_get_keeps | intros r].
    apply write_file_keeps. exact E.
  - apply print_keeps.
Qed.

(** X3. Whatever the listing holds and whether the download returns or
    raises, [download_files] removes no directory and leaves every file
    whose path does not end in [.py] (in any case of the letters) exactly
    as it was: it only ever stores files under such names. *)
Theorem download_files_keeps_other_files
    remote (repo_url : pyval) (local_dir : string) (w : World) :
  keeps_other_files w (snd (download_files remote repo_url local_dir w)).
Proof.
  revert w. change (preserves keeps_other_files (download_files remote repo_url local_dir)).
  unfold download_files.
  apply keeps_bind; [apply requests_get_keeps | intros response].
  apply keeps_bind; [apply response_json_keeps | intros files].
  apply keeps_bind; [intros w; apply keeps_other_files_refl | intros present].
  apply keeps_bind; [|intros _].
  { destruct present; [apply keeps_ret | apply makedirs_keeps]. }
  apply download_loop_keeps.
Qed.

Lemma makedirs_paths_head (n : nat) (p : string) :
  PyString.rstrip_sep p <> "" -> In p (makedirs_paths (S n) p).
Proof.
  intros Hp. simpl.
  destruct (String.eqb p "") eqn:E1.
  - apply String.eqb_eq in E1. subst p. contradiction.
  - destruct (String.eqb (PyString.rstrip_sep p) "") eqn:E2.
    + apply String.eqb_eq in E2. contradiction.
    + left. reflexivity.
Qed.

(** X5. When [download_files] returns, the destination exists: it is a
    directory of the final world, or it already named a file when the
    download began (in which case nothing was created). The destination
    must be a proper path, not the empty string and not separators only. *)
Theorem download_files_makes_destination
    remote (repo_url : pyval) (local_dir : string) (w w' : World) :
  PyString.rstrip_sep local_dir <> "" ->
  download_files remote repo_url local_dir w = (Ok tt, w') ->
  local_dir ∈ w_dirs w' \/ is_Some (w_files w !! local_dir).
Proof.
  intros Hp H. unfold download_files in H.
  apply bind_inv_ok in H as (response & w1 & H1 & H).
  apply bind_inv_ok in H as (files & w2 & H2 & H).
  apply bind_inv_ok in H as (present & w3 & H3 & H).
  apply bind_inv_ok in H as ([] & w4 & H4 & H).
  pose proof (download_loop_keeps remote local_dir files w4) as [Hd _].
  rewrite H in Hd. simpl in Hd.
  pose proof (requests_get_keeps remote repo_url w) as [_ Hf1].
  rewrite H1 in Hf1. simpl in Hf1.
  assert (w2 = w1) as -> by (unfold response_json in H2; destruct (json response);
                             inversion H2; reflexivity).
  unfold path_exists in H3. inversion H3; subst w3 present; clear H3.
  destruct (bool_decide (local_dir ∈ w_dirs w1)) eqn:Ed; simpl in H4.
  - inversion H4; subst w4. apply bool_decide_eq_true_1 in Ed. left. set_solver.
  - destruct (bool_decide (is_Some (w_files w1 !! local_dir))) eqn:Ef; simpl in H4.
    + inversion H4; subst w4. apply bool_decide_eq_true_1 in Ef. right.
      unfold requests_get, bind, emit in H1.
      destruct repo_url as [| | |u| |]; try discriminate.
      destruct (remote u); inversion H1; subst w1. exact Ef.
    + unfold makedirs in H4. destruct (String.eqb local_dir ""); [discriminate|].
      inversion H4; subst w4. left. apply Hd. simpl.
      apply elem_of_union_l, elem_of_list_to_set, list_elem_of_In.
      apply makedirs_paths_head. exact Hp.
Qed.

Lemma download_files_makes_destination_witness :
  "temp" ∈ w_dirs Demo.staged \/ is_Some (w_files empty_world !! "temp").
Proof.
  apply (download_files_makes_destination Demo.remote (PyStr Demo.api_url) "temp"
           empty_world Demo.staged).
  - vm_compute. discriminate.
  - vm_compute. reflexivity.
Defined.

Lemma writable_dirs (p : string) (w1 w2 : World) :
  w_dirs w1 = w_dirs w2 -> writable p w1 = writable p w2.
Proof. intros H. unfold writable, parent_exists. rewrite H. reflexivity. Qed.

Lemma fetchable_dirs remote (local_dir : string) (w1 w2 : World) (e : string * pyval) :
  w_dirs w1 = w_dirs w2 -> fetchable remote local_dir w1 e -> fetchable remote local_dir w2 e.
Proof.
  intros H Hf Hpy. destruct (Hf Hpy) as [Hw Hr].
  split; [rewrite <- (writable_dirs _ w1 w2 H); exact Hw | exact Hr].
Qed.

(** The loop of [download_files] on a listing whose entries can be read
    and whose source files can be fetched and stored. *)
Lemma download_loop_stages remote (local_dir : string)
      (items : list pyval) (entries : list (string * pyval)) :
  Forall2 reads_as items entries ->
  forall w,
    (forall e, In e entries -> fetchable remote local_dir w e) ->
    exists w',
      for_each items (fun file =>
        download_url <- lift (py_getitem file "download_url") ;;
        name <- lift (py_getitem file "name") ;;
        file_name <- join_name local_dir name ;;
        if negb (PyString.endswith (PyString.lower file_name) ".py") then
          print (PyStr ("Skipping file '" +:+ file_name +:+ "' as it is not a python file"))
        else
          print (PyStr ("Downloading to path '" +:+ file_name +:+ "'")) ;;;
          r <- requests_get remote download_url ;;
          write_file file_name (Text (text r))) w = (Ok tt, w')
      /\ w_files w' = fold_left (stage_entry remote local_dir) entries (w_files w)
      /\ w_dirs w' = w_dirs w.
Proof.
  induction 1 as [|item e items entries [Hd Hn] HF IH]; intros w Hf.
  - exists w. repeat split; reflexivity.
  - cbn [for_each fold_left].
    match goal with
    | |- exists w', bind ?c ?k w = _ /\ _ =>
        assert (exists w1, c w = (Ok tt, w1)
                           /\ w_files w1 = stage_entry remote local_dir (w_files w) e
                           /\ w_dirs w1 = w_dirs w) as (w1 & Hstep & Hfiles & Hdirs)
    end.
    { rewrite (bind_ok _ _ w w (snd e)) by (unfold lift; rewrite Hd; reflexivity).
      rewrite (bind_ok _ _ w w (PyStr (fst e))) by (unfold lift; rewrite Hn; reflexivity).
      rewrite (bind_ok _ _ w w (PyString.path_join local_dir (fst e))) by reflexivity.
      specialize (Hf e (or_introl eq_refl)). unfold fetchable in Hf. unfold stage_entry.
      destruct (PyString.endswith (PyString.lower (PyString.path_join local_dir (fst e))) ".py").
      - destruct (Hf eq_refl) as (Hw & u & r & Hu & Hr). rewrite Hu, Hr. cbn [negb].
        unfold bind at 1. unfold print at 1, emit at 1.
        erewrite bind_ok; cycle 1.
        { unfold requests_get, bind, emit. rewrite Hr. reflexivity. }
        rewrite write_file_ok by (rewrite <- Hw; apply writable_dirs; reflexivity).
        eexists. split; [reflexivity|]. split; reflexivity.
      - cbn [negb]. eexists. split; [reflexivity|]. split; reflexivity. }
    destruct (IH w1) as (w' & Hloop & Hfiles' & Hdirs').
    { intros e' He'. apply (fetchable_dirs remote local_dir w w1); [congruence|].
      apply Hf. right. exact He'. }
    exists w'. split; [rewrite (bind_ok _ _ _ _ _ Hstep); exact Hloop|].
    split; [rewrite Hfiles', Hfiles; reflexivity | congruence].
Qed.

(** X4. What a download stores. For a listing that is a list of entries
    with a string under [name] and a value under [download_url], asked for
    with an existing destination directory, and such that every entry
    whose path ends in [.py] has an address the remote side answers and a
    path that can be written: [download_files] returns, creates no
    directory, and the files are those before, changed entry by entry —
    a source entry stores the body its address returns under
    [os.path.join(local_dir, name)] (a later entry of the same name
    replacing an earlier one), any other entry stores nothing. *)
Theorem download_files_stages_the_listing
    remote (ru : string) (resp : Response) (items : list pyval)
    (entries : list (string * pyval)) (local_dir : string) (w : World) :
  remote ru = Some resp ->
  json resp = Some (PyList items) ->
  local_dir ∈ w_dirs w ->
  Forall2 reads_as items entries ->
  (forall e, In e entries -> fetchable remote local_dir w e) ->
  exists w',
    download_files remote (PyStr ru) local_dir w = (Ok tt, w')
    /\ w_files w' = fold_left (stage_entry remote local_dir) entries (w_files w)
    /\ w_dirs w' = w_dirs w.
Proof.
  intros Hr Hj Hd Hread Hfetch. unfold download_files.
  erewrite bind_ok; cycle 1.
  { unfold requests_get, bind, emit. rewrite Hr. reflexivity. }
  erewrite bind_ok; cycle 1.
  { unfold response_json. rewrite Hj. reflexivity. }
  erewrite bind_ok; cycle 1.
  { unfold path_exists. simpl. rewrite (bool_decide_eq_true_2 _ Hd). reflexivity. }
  cbn [orb]. rewrite (bind_ok _ _ _ _ tt eq_refl).
  rewrite (bind_ok _ _ _ _ items eq_refl).
  destruct (download_loop_stages remote local_dir items entries Hread
              (log [EGet (PyStr ru)] w)) as (w' & H1 & H2 & H3).
  { intros e He. apply (fetchable_dirs remote local_dir w); [reflexivity|].
    apply Hfetch. exact He. }
  exists w'. split; [exact H1|]. split; [exact H2 | exact H3].
Qed.

Lemma download_files_stages_the_listing_witness :
  exists w',
    download_files Demo.remote (PyStr Demo.api_url) "temp" Demo.staged = (Ok tt, w')
    /\ w_files w'
       = fold_left (stage_entry Demo.remote "temp")
           [("a.py", PyStr Demo.a_raw); ("pkg", PyNone)] (w_files Demo.staged)
    /\ w_dirs w' = w_dirs Demo.staged.
Proof.
  apply (download_files_stages_the_listing Demo.remote Demo.api_url
           (Demo.json_response 200 Demo.listing)
           [Demo.file_entry "a.py" Demo.a_raw; Demo.dir_entry "pkg" Demo.pkg_url]).
  - reflexivity.
  - reflexivity.
  - refine (bool_decide_eq_true_1 _ _). vm_compute. reflexivity.
  - repeat constructor.
  - intros e [<-|[<-|[]]].
    + intros _. split; [vm_compute; reflexivity|].
      exists Demo.a_raw, (Demo.text_response 200 Demo.a_source).
      split; reflexivity.
    + intros H. vm_compute in H. discriminate H.
Defined.

(** ** The scan *)

Lemma prints_only_ret {A} (a : A) : prints_only (ret a).
Proof. intros w. exists a, []. rewrite log_nil. reflexivity. Qed.

Lemma prints_only_print (v : pyval) : prints_only (print v).
Proof. intros w. exists tt, [EPrint v]. reflexivity. Qed.

Lemma prints_only_bind {A B} (c : M A) (k : A -> M B) :
  prints_only c -> (forall a, prints_only (k a)) -> prints_only (bind c k).
Proof.
  intros Hc Hk w. destruct (Hc w) as (a & es & H1).
  destruct (Hk a (log es w)) as (b & fs & H2).
  exists b, (es ++ fs). rewrite (bind_ok _ _ _ _ _ H1), H2, log_log. reflexivity.
Qed.

Lemma prints_only_for_fold {A S} (xs : list A) (s : S) (body : S -> A -> M S) :
  (forall s x, prints_only (body s x)) -> prints_only (for_fold xs s body).
Proof.
  intros Hb. revert s. induction xs as [|x r IH]; intros s; simpl.
  - apply prints_only_ret.
  - apply prints_only_bind; [apply Hb | intros s'; apply IH].
Qed.

(** The [try] of [run_bandit_on_file] catches whatever the engine raises. *)
Lemma run_bandit_on_file_prints_only Mgr mgr_run mgr_results
      (b_mgr : Mgr) (file_path : string) :
  prints_only (run_bandit_on_file Mgr mgr_run mgr_results b_mgr file_path).
Proof.
  intros w. unfold run_bandit_on_file.
  destruct (mgr_run b_mgr file_path (w_files w !! file_path)) as [m [e|]].
  - eexists _, [_]. reflexivity.
  - eexists _, []. rewrite log_nil. reflexivity.
Qed.

(** X6. [scan_directory] never raises, whatever the directory holds and
    whatever the engine does on a file: it returns a list of issues, and
    the world afterwards is the world before with more output. It stores,
    changes and removes nothing. *)
Theorem scan_directory_returns_and_only_prints
    Mgr mgr_new mgr_run mgr_results (directory : string) (w : World) :
  exists issues es,
    scan_directory Mgr mgr_new mgr_run mgr_results directory w = (Ok issues, log es w).
Proof.
  revert w. change (prints_only (scan_directory Mgr mgr_new mgr_run mgr_results directory)).
  unfold scan_directory.
  apply prints_only_bind.
  { intros w. eexists _, []. unfold os_walk. rewrite log_nil. reflexivity. }
  intros tree. apply prints_only_bind; [|intros st; apply prints_only_ret].
  apply prints_only_for_fold. intros st entry.
  apply prints_only_for_fold. intros st' file.
  destruct (PyString.endswith file ".py"); [|apply prints_only_ret].
  apply prints_only_bind; [apply prints_only_print | intros _].
  apply prints_only_bind; [apply run_bandit_on_file_prints_only | intros res].
  apply prints_only_ret.
Qed.

Lemma skip_files {S} (files : list string) (st : S) (body : S -> string -> M S) (w : World) :
  Forall (fun file => forall s, body s file = ret s) files ->
  for_fold files st body w = (Ok st, w).
Proof.
  revert st. induction files as [|f r IH]; intros st HF; simpl; [reflexivity|].
  inversion HF as [|? ? Hf Hr]; subst.
  unfold bind. rewrite Hf. simpl. apply IH. exact Hr.
Qed.

(** X7. The scan looks at names that end in [.py] in lower case only.
    When the walk of the directory finds no such name, [scan_directory]
    returns no issue, prints nothing and never runs the engine: the
    result is the same for every engine. A file that the download stored
    under an upper-case extension is among those it leaves out. *)
Theorem scan_directory_skips_other_names
    Mgr mgr_new mgr_run mgr_results (directory : string) (w : World)
    (tree : list (string * list string)) :
  os_walk directory w = (Ok tree, w) ->
  Forall (fun entry =>
            Forall (fun file => PyString.endswith file ".py" = false) (snd entry))
         tree ->
  scan_directory Mgr mgr_new mgr_run mgr_results directory w = (Ok [], w).
Proof.
  intros Hwalk Hnone. unfold scan_directory.
  rewrite (bind_ok _ _ _ _ _ Hwalk).
  match goal with
  | |- bind (for_fold tree ?st0 ?body) _ w = _ =>
      assert (forall st, for_fold tree st body w = (Ok st, w)) as Hloop
  end.
  { clear Hwalk. induction tree as [|entry r IH]; intros st; simpl; [reflexivity|].
    inversion Hnone as [|? ? He Hr]; subst.
    unfold bind at 1. rewrite skip_files.
    - cbv beta iota. apply (IH Hr).
    - eapply Forall_impl; [exact He|]. intros file Hf s. simpl in Hf.
      rewrite Hf. reflexivity. }
  rewrite (bind_ok _ _ _ _ _ (Hloop _)). reflexivity.
Qed.

Lemma scan_directory_skips_other_names_witness :
  w_files Demo.upper_case_world !! "temp/A.PY" = Some (Text Demo.a_source)
  /\ PyString.endswith (PyString.lower "temp/A.PY") ".py" = true
  /\ scan_directory Demo.Mgr Demo.mgr_new Demo.mgr_run Demo.mgr_results "temp"
       Demo.upper_case_world
     = (Ok [], Demo.upper_case_world).
Proof.
  split; [vm_compute; reflexivity|]. split; [reflexivity|].
  apply (scan_directory_skips_other_names Demo.Mgr Demo.mgr_new Demo.mgr_run
           Demo.mgr_results "temp" Demo.upper_case_world [("temp", ["A.PY"])]).
  - vm_compute. reflexivity.
  - repeat constructor.
Defined.

(** ** More on the set of issues *)

Lemma apart_app_head same (s l : list Bandit.Issue) (x : Bandit.Issue) :
  apart same (s ++ x :: l) -> existsb (fun y => same y x) s = false.
Proof.
  intros Ha. destruct (existsb (fun y => same y x) s) eqn:E; [|reflexivity].
  apply existsb_exists in E as (y & Hy & Hs).
  apply in_split in Hy as (s1 & s2 & ->).
  rewrite (Ha s1 y s2 x l) in Hs; [discriminate|].
  rewrite <- app_assoc. reflexivity.
Qed.

Lemma fold_set_add_apart_id same (l s : list Bandit.Issue) :
  apart same (s ++ l) -> fold_left (set_add same) l s = s ++ l.
Proof.
  revert s. induction l as [|x l IH]; intros s Ha; simpl.
  - rewrite app_nil_r. reflexivity.
  - unfold set_add at 2. rewrite (apart_app_head same s l x Ha).
    rewrite IH; rewrite <- app_assoc; [reflexivity | exact Ha].
Qed.

(** X8. When no issue of the list is taken for an earlier one (all are
    distinct objects, say), normalization drops nothing: the set holds
    exactly the issues of the list, and the data rows of the report are
    the rows of these issues, one per issue, in some order. Building the
    set of a set changes nothing. *)
Theorem py_set_keeps_distinct_issues same (issues : list Bandit.Issue) :
  (apart same issues ->
   Permutation (py_set same issues) issues
   /\ Permutation (tail (report_rows same issues)) (map cells issues)
   /\ length (tail (report_rows same issues)) = length issues)
  /\ Permutation (py_set same (py_set same issues)) (py_set same issues).
Proof.
  assert (forall l, apart same l -> py_set same l = l) as Hid
    by (intros l Hl; apply (fold_set_add_apart_id same l []); exact Hl).
  split.
  - intros Ha. rewrite report_rows_data, (Hid _ Ha), length_map.
    split; [reflexivity|]. split; reflexivity.
  - rewrite (Hid _ (py_set_apart same issues)). reflexivity.
Qed.

Lemma py_set_keeps_distinct_issues_witness :
  Permutation (py_set Bandit.same_object [Demo.first_run; Demo.second_run])
    [Demo.first_run; Demo.second_run]
  /\ Permutation
       (tail (report_rows Bandit.same_object [Demo.first_run; Demo.second_run]))
       (map cells [Demo.first_run; Demo.second_run])
  /\ length (tail (report_rows Bandit.same_object [Demo.first_run; Demo.second_run]))
     = length [Demo.first_run; Demo.second_run].
Proof.
  apply (proj1 (py_set_keeps_distinct_issues Bandit.same_object
                  [Demo.first_run; Demo.second_run])).
  change (apart Bandit.same_object
            (py_set Bandit.same_object [Demo.first_run; Demo.second_run])).
  apply py_set_apart.
Defined.

Lemma fold_set_add_known same (l s : list Bandit.Issue) :
  (forall x, In x l -> kept_for same x s <> []) ->
  fold_left (set_add same) l s = s.
Proof.
  induction l as [|x l IH]; intros Hk; simpl; [reflexivity|].
  unfold set_add at 2.
  destruct (existsb (fun y => same y x) s) eqn:E.
  - apply IH. intros y Hy. apply Hk. right. exact Hy.
  - apply kept_for_nil in E. destruct (Hk x (or_introl eq_refl) E).
Qed.

(** X9. Issues that come again change nothing. When the test of the
    Issue class behaves as an equality, appending issues that the list
    already holds (as the scan does when it extends its list with the
    results the manager has accumulated so far) gives the same set and the
    same report. *)
Theorem report_ignores_repeated_issues same (issues again : list Bandit.Issue) :
  is_equivalence same ->
  (forall x, In x again -> In x issues) ->
  py_set same (issues ++ again) = py_set same issues
  /\ report_rows same (issues ++ again) = report_rows same issues.
Proof.
  intros He Hsub.
  assert (py_set same (issues ++ again) = py_set same issues) as Hset.
  { unfold py_set. rewrite fold_left_app. apply fold_set_add_known.
    intros x Hx Hnil. pose proof (py_set_kept_once same He issues x (Hsub x Hx)) as H1.
    unfold py_set in H1. rewrite Hnil in H1. discriminate H1. }
  split; [exact Hset|].
  unfold report_rows, issues_data. rewrite Hset. reflexivity.
Qed.

Lemma report_ignores_repeated_issues_witness :
  py_set Bandit.same_object
    ([Demo.found 0 "temp/a.py"] ++ [Demo.found 0 "temp/a.py"])
  = py_set Bandit.same_object [Demo.found 0 "temp/a.py"]
  /\ report_rows Bandit.same_object
       ([Demo.found 0 "temp/a.py"] ++ [Demo.found 0 "temp/a.py"])
     = report_rows Bandit.same_object [Demo.found 0 "temp/a.py"].
Proof.
  apply (report_ignores_repeated_issues Bandit.same_object
           [Demo.found 0 "temp/a.py"] [Demo.found 0 "temp/a.py"]
           same_object_equivalence).
  intros x Hx. exact Hx.
Defined.

(** ** Failures of the report and of the orchestrator *)

Lemma write_file_fails (p : string) (c : FileContent) (w : World) :
  writable p w = false ->
  write_file p c w
  = (Raise (if bool_decide (p ∈ w_dirs w) then IsADirectoryError p
            else FileNotFoundError p), w).
Proof.
  unfold writable, write_file. intros H.
  destruct (bool_decide (p ∈ w_dirs w)); [reflexivity|].
  simpl in H. rewrite H. reflexivity.
Qed.

Lemma save_compliance_report_fails same (issues : list Bandit.Issue)
      (output_file : string) (w : World) :
  writable output_file w = false ->
  save_compliance_report same issues output_file w
  = (Raise (if bool_decide (output_file ∈ w_dirs w)
            then IsADirectoryError output_file
            else FileNotFoundError output_file), w).
Proof.
  intros Hw. unfold save_compliance_report, Pandas.to_csv.
  apply bind_raise. apply write_file_fails. exact Hw.
Qed.

(** X10. When the output path cannot be written (it names a directory,
    or its parent directory does not exist), [save_compliance_report]
    raises the error of the write, stores nothing and does not print its
    message of success: the world is left as it was. *)
Theorem save_compliance_report_unwritable same (issues : list Bandit.Issue)
    (output_file : string) (w : World) :
  writable output_file w = false ->
  exists e, save_compliance_report same issues output_file w = (Raise e, w).
Proof.
  intros Hw. eexists. apply save_compliance_report_fails. exact Hw.
Qed.

Lemma save_compliance_report_unwritable_witness :
  exists e,
    save_compliance_report Bandit.same_object [Demo.first_run]
      "reports/compliance_report.csv" empty_world = (Raise e, empty_world).
Proof.
  apply (save_compliance_report_unwritable Bandit.same_object [Demo.first_run]
           "reports/compliance_report.csv" empty_world).
  vm_compute. reflexivity.
Defined.

(** X11. [main] fails in two ways only. Either the download raises, and
    [main] raises the same exception in the same world, before any scan;
    or the download and the scan went through, there are issues, and the
    report cannot be written, in which case no file has been stored since
    the download. The scan itself never makes [main] fail. *)
Theorem main_raises_from_download_or_write
    remote Mgr mgr_new mgr_run mgr_results same
    (repo_url : pyval) (directory : string) (w w' : World) (e : exn) :
  main remote Mgr mgr_new mgr_run mgr_results same repo_url directory w = (Raise e, w') ->
  download_files remote repo_url directory w = (Raise e, w')
  \/ (exists w1,
        download_files remote repo_url directory w = (Ok tt, w1)
        /\ writable "compliance_report.csv" w1 = false
        /\ w_files w' = w_files w1
        /\ fst (scan_directory Mgr mgr_new mgr_run mgr_results directory w1) <> Ok []).
Proof.
  intros Hm.
  destruct (download_files remote repo_url directory w) as [[[]|e1] w1] eqn:Hd.
  - right. exists w1. split; [reflexivity|].
    destruct (scan_directory_returns_and_only_prints Mgr mgr_new mgr_run mgr_results
                directory w1) as (issues & es & Hs).
    rewrite (main_after_scan remote Mgr mgr_new mgr_run mgr_results same
               _ _ _ _ _ _ Hd Hs) in Hm.
    destruct issues as [|i l]; [discriminate Hm|].
    destruct (writable "compliance_report.csv" w1) eqn:Hw.
    + rewrite save_compliance_report_ok in Hm by exact Hw. discriminate Hm.
    + rewrite save_compliance_report_fails in Hm by exact Hw.
      inversion Hm; subst. split; [reflexivity|]. split; [reflexivity|].
      rewrite Hs. simpl. discriminate.
  - left. unfold main in Hm. rewrite (bind_raise _ _ _ _ _ Hd) in Hm. exact Hm.
Qed.

Lemma main_raises_from_download_or_write_witness :
  download_files Demo.remote (PyStr Demo.missing_url) "temp" empty_world
  = (Raise TypeError,
     snd (download_files Demo.remote (PyStr Demo.missing_url) "temp" empty_world))
  \/ (exists w1,
        download_files Demo.remote (PyStr Demo.missing_url) "temp" empty_world = (Ok tt, w1)
        /\ writable "compliance_report.csv" w1 = false
        /\ w_files (snd (download_files Demo.remote (PyStr Demo.missing_url) "temp"
                           empty_world)) = w_files w1
        /\ fst (scan_directory Demo.Mgr Demo.mgr_new Demo.mgr_run Demo.mgr_results
                  "temp" w1) <> Ok []).
Proof.
  apply (main_raises_from_download_or_write Demo.remote Demo.Mgr Demo.mgr_new
           Demo.mgr_run Demo.mgr_results Bandit.same_object).
  vm_compute. reflexivity.
Defined.

(** ** More on paths *)

(** X12. From the staging directory to the report. A file that the
    download stored for an entry called [name] (a name without separator)
    lies at [os.path.join(local_dir, name)], and an issue found in that
    file shows [name] itself in the File column, whatever the staging
    directory is called. *)
Theorem report_shows_the_entry_name
    (issue : Bandit.Issue) (local_dir name : string) :
  PyString.contains PyString.sep name = false ->
  Bandit.fname issue = PyString.path_join local_dir name ->
  dict_get (format_issue issue) "File" = Some (PyStr name)
  /\ head (cells issue) = Some (PyStr name).
Proof.
  intros Hn Hf. unfold format_issue, cells. simpl.
  rewrite Hf, (basename_path_join local_dir name Hn). split; reflexivity.
Qed.

Lemma report_shows_the_entry_name_witness :
  dict_get (format_issue (Demo.found 0 "temp/a.py")) "File" = Some (PyStr "a.py")
  /\ head (cells (Demo.found 0 "temp/a.py")) = Some (PyStr "a.py").
Proof.
  apply (report_shows_the_entry_name (Demo.found 0 "temp/a.py") "temp" "a.py");
    reflexivity.
Defined.

(** ** More on resolution *)

Lemma repo_path_after_prefix (s : string) :
  PyString.startswith (github_prefix +:+ s) github_prefix = true
  /\ repo_path (github_prefix +:+ s) = PyString.split_on "/" s.
Proof.
  split.
  - unfold PyString.startswith, github_prefix. simpl.
    destruct s; reflexivity.
  - reflexivity.
Qed.

(** X13. The endpoint of a repository address. For an owner and a
    repository name without separator, the address
    [https://github.com/owner/repo] resolves to
    [https://api.github.com/repos/owner/repo/contents/], and so does
    every address that goes on after the repository name with a separator
    (a branch, a sub-directory, a trailing separator): what follows the
    second segment is ignored. *)
Theorem convert_github_url_to_api_endpoint (owner repo rest : string) :
  PyString.contains PyString.sep owner = false ->
  PyString.contains PyString.sep repo = false ->
  convert_github_url_to_api (github_prefix +:+ owner +:+ "/" +:+ repo)
  = Ok ("https://api.github.com/repos/" +:+ owner +:+ "/" +:+ repo +:+ "/contents/")
  /\ convert_github_url_to_api (github_prefix +:+ owner +:+ "/" +:+ repo +:+ "/" +:+ rest)
     = Ok ("https://api.github.com/repos/" +:+ owner +:+ "/" +:+ repo +:+ "/contents/").
Proof.
  intros Ho Hr. unfold PyString.sep in Ho, Hr.
  split; unfold convert_github_url_to_api.
  - destruct (repo_path_after_prefix (owner +:+ "/" +:+ repo)) as [-> ->].
    change ("/" +:+ repo) with (String "/" repo).
    rewrite split_on_app_sep, (split_on_nosep _ _ Ho), (split_on_nosep _ _ Hr).
    reflexivity.
  - destruct (repo_path_after_prefix (owner +:+ "/" +:+ repo +:+ "/" +:+ rest)) as [-> ->].
    change ("/" +:+ repo +:+ "/" +:+ rest) with (String "/" (repo +:+ String "/" rest)).
    rewrite split_on_app_sep, (split_on_nosep _ _ Ho).
    rewrite split_on_app_sep, (split_on_nosep _ _ Hr).
    reflexivity.
Qed.

Lemma convert_github_url_to_api_endpoint_witness :
  convert_github_url_to_api (github_prefix +:+ "o" +:+ "/" +:+ "r")
  = Ok ("https://api.github.com/repos/" +:+ "o" +:+ "/" +:+ "r" +:+ "/contents/")
  /\ convert_github_url_to_api
       (github_prefix +:+ "o" +:+ "/" +:+ "r" +:+ "/" +:+ "tree/main")
     = Ok ("https://api.github.com/repos/" +:+ "o" +:+ "/" +:+ "r" +:+ "/contents/").
Proof.
  apply (convert_github_url_to_api_endpoint "o" "r" "tree/main"); reflexivity.
Defined.

(** X14. The outcomes of resolution. When it returns, the reference
    starts with the prefix, has at least two segments after it, and the
    endpoint is built from the first two; when it raises, the exception is
    the [ValueError] of the prefix test or the [AssertionError] of the
    segment count. The indexing of the segments never fails. *)
Theorem convert_github_url_to_api_outcomes (url : string) :
  match convert_github_url_to_api url with
  | Ok api =>
      PyString.startswith url github_prefix = true
      /\ exists owner repo more,
           repo_path url = owner :: repo :: more
           /\ api = "https://api.github.com/repos/" +:+ owner +:+ "/" +:+ repo
                    +:+ "/contents/"
  | Raise e =>
      (e = ValueError "Invalid GitHub URL"
       /\ PyString.startswith url github_prefix = false)
      \/ (e = AssertionError "Looks like an invalid('/')"
          /\ PyString.startswith url github_prefix = true
          /\ (length (repo_path url) < 2)%nat)
  end.
Proof.
  unfold convert_github_url_to_api.
  destruct (PyString.startswith url github_prefix); cbn [negb].
  - destruct (repo_path url) as [|owner [|repo more]]; cbn [length Nat.leb].
    + right. repeat split. lia.
    + right. repeat split. lia.
    + split; [reflexivity|]. exists owner, repo, more. split; reflexivity.
  - left. split; reflexivity.
Qed.

(** ** The entry points with a wrong number of arguments *)

(** X15. The primary script with anything but one argument prints its
    usage line and goes on all the same: [main] is called with [None] for
    the endpoint, the download issues its request, and the error of that
    request ends the run. Nothing is resolved, scanned or written. *)
Theorem script_usage_then_main
    remote Mgr mgr_new mgr_run mgr_results same (argv : list string) (w : World) :
  length argv <> 2%nat ->
  script remote Mgr mgr_new mgr_run mgr_results same argv w
  = (Raise MissingSchema,
     log [EPrint (PyStr "Usage: python <file_name> <repo_url>"); EGet PyNone] w).
Proof.
  intros Hn. unfold script.
  destruct (length argv =? 2)%nat eqn:E; [apply Nat.eqb_eq in E; contradiction|].
  cbn [negb]. unfold bind at 1. unfold bind at 1. unfold print, emit, ret.
  unfold main, download_files, requests_get, bind, emit, raise.
  rewrite log_log. reflexivity.
Qed.

Lemma script_usage_then_main_witness :
  script Demo.remote Demo.Mgr Demo.mgr_new Demo.mgr_run Demo.mgr_results
    Bandit.same_object ["compliance_check.py"] empty_world
  = (Raise MissingSchema,
     log [EPrint (PyStr "Usage: python <file_name> <repo_url>"); EGet PyNone]
       empty_world).
Proof.
  apply (script_usage_then_main Demo.remote Demo.Mgr Demo.mgr_new Demo.mgr_run
           Demo.mgr_results Bandit.same_object ["compliance_check.py"] empty_world).
  simpl. lia.
Defined.

(** X16. The workflow script with anything but two arguments prints its
    usage line, with the base name of the script file, and exits with
    status 1: no directory is created and no command is run. *)
Theorem workflow_script_usage_exit
    run_process (script_file : string) (argv : list string) (w : World) :
  length argv <> 3%nat ->
  Workflow.script run_process script_file argv w
  = (Raise (SystemExit 1),
     log [EPrint (PyStr ("Usage: " +:+ PyString.basename script_file
                         +:+ " <github_repository> <output_directory>"))] w).
Proof.
  intros Hn. unfold Workflow.script.
  destruct (length argv =? 3)%nat eqn:E; [apply Nat.eqb_eq in E; contradiction|].
  reflexivity.
Qed.

Lemma workflow_script_usage_exit_witness :
  Workflow.script Demo.reporting ".github/workflows/compliance_check.py"
    ["compliance_check.py"; "https://github.com/o/r"] empty_world
  = (Raise (SystemExit 1),
     log [EPrint (PyStr ("Usage: "
                         +:+ PyString.basename ".github/workflows/compliance_check.py"
                         +:+ " <github_repository> <output_directory>"))] empty_world).
Proof.
  apply (workflow_script_usage_exit Demo.reporting
           ".github/workflows/compliance_check.py"
           ["compliance_check.py"; "https://github.com/o/r"] empty_world).
  simpl. lia.
Defined.

(** ** The workflow analysis *)

Lemma keeps_dirs_refl (w : World) : keeps_dirs w w.
Proof. unfold keeps_dirs. set_solver. Qed.

Lemma keeps_dirs_trans (w1 w2 w3 : World) :
  keeps_dirs w1 w2 -> keeps_dirs w2 w3 -> keeps_dirs w1 w3.
Proof. unfold keeps_dirs. set_solver. Qed.

Lemma dirs_bind {A B} (c : M A) (k : A -> M B) :
  preserves keeps_dirs c -> (forall a, preserves keeps_dirs (k a)) ->
  preserves keeps_dirs (bind c k).
Proof. apply preserves_bind, keeps_dirs_trans. Qed.

Lemma dirs_lift {A} (r : Res A) : preserves keeps_dirs (lift r).
Proof. apply preserves_lift, keeps_dirs_refl. Qed.

Lemma dirs_write_file (p : string) (c : FileContent) :
  preserves keeps_dirs (write_file p c).
Proof.
  intros w. unfold write_file.
  destruct (bool_decide (p ∈ w_dirs w)); [apply keeps_dirs_refl|].
  destruct (parent_exists p w); [|apply keeps_dirs_refl].
  unfold keeps_dirs. simpl. set_solver.
Qed.

Lemma removed_bind {A B} (d : string) (c : M A) (k : A -> M B) (w : World) :
  preserves keeps_dirs c ->
  (forall a w1, d ∈ w_dirs w1 -> removed_iff_returned d (k a w1)) ->
  d ∈ w_dirs w -> removed_iff_returned d (bind c k w).
Proof.
  intros Hc Hk Hd. unfold bind. specialize (Hc w). unfold keeps_dirs in Hc.
  destruct (c w) as [[a|e] w1]; simpl in Hc.
  - apply Hk. set_solver.
  - unfold removed_iff_returned. simpl. set_solver.
Qed.

Lemma removed_rmtree (d : string) (w : World) :
  d ∈ w_dirs w -> removed_iff_returned d (rmtree d w).
Proof.
  intros Hd. unfold removed_iff_returned.
  destruct (rmtree d w) as [[[]|e] w'] eqn:E; simpl.
  - exact (rmtree_removes d w w' E).
  - unfold rmtree in E. rewrite (bool_decide_eq_true_2 _ Hd) in E. discriminate E.
Qed.

(** X17. The clone directory and the outcome of the analysis. When the
    commands the script runs remove no directory, the temporary directory
    that [run_bandit] creates is gone exactly when [run_bandit] returns;
    whenever it raises — a command that cannot be started, output that is
    not JSON, a result without one of the six keys, a report that cannot
    be written — the directory is still there. *)
Theorem run_bandit_removes_clone_iff_it_returns
    run_process (target_path output_dir : string) (w w1 : World) (temp_dir : string) :
  (forall argv, preserves keeps_dirs (run_process argv)) ->
  mkdtemp w = (Ok temp_dir, w1) ->
  removed_iff_returned temp_dir (Workflow.run_bandit run_process target_path output_dir w).
Proof.
  intros Hrun Hmk. unfold Workflow.run_bandit.
  rewrite (bind_ok _ _ _ _ _ Hmk).
  assert (temp_dir ∈ w_dirs w1) as Hd
    by (unfold mkdtemp in Hmk; inversion Hmk; subst; simpl; set_solver).
  assert (forall argv, preserves keeps_dirs (Workflow.subprocess_run run_process argv))
    as Hsub.
  { intros argv. unfold Workflow.subprocess_run.
    apply dirs_bind; [intros w0; apply (keeps_dirs_refl w0) | intros _; apply Hrun]. }
  revert Hd. generalize w1. clear Hmk w w1. intros w Hd.
  apply removed_bind; [apply Hsub | intros _ w2 Hd2 | exact Hd].
  apply removed_bind; [apply Hsub | intros result w3 Hd3 | exact Hd2].
  apply removed_bind; [|intros bandit_data w4 Hd4 | exact Hd3].
  { unfold Workflow.json_loads. destruct (stdout_json result);
      intros w0; apply keeps_dirs_refl. }
  apply removed_bind; [apply dirs_lift | intros results w5 Hd5 | exact Hd4].
  apply removed_bind; [apply dirs_lift | intros items w6 Hd6 | exact Hd5].
  apply removed_bind; [|intros csv_data w7 Hd7 | exact Hd6].
  { apply preserves_for_fold; [apply keeps_dirs_refl | apply keeps_dirs_trans|].
    intros acc item. repeat (apply dirs_bind; [apply dirs_lift | intros ?]).
    intros w0. apply keeps_dirs_refl. }
  apply removed_bind; [apply dirs_write_file | intros _ w8 Hd8 | exact Hd7].
  apply removed_bind; [intros w0; apply (keeps_dirs_refl w0) | intros _ w9 Hd9 | exact Hd8].
  apply removed_rmtree. exact Hd9.
Qed.

Lemma run_bandit_removes_clone_iff_it_returns_witness :
  removed_iff_returned "/tmp/tmp0"
    (Workflow.run_bandit Demo.silent "https://github.com/o/r" "out" empty_world)
  /\ removed_iff_returned "/tmp/tmp0"
       (Workflow.run_bandit Demo.reporting "https://github.com/o/r" "" empty_world).
Proof.
  split.
  - apply (run_bandit_removes_clone_iff_it_returns Demo.silent
             "https://github.com/o/r" "out" empty_world (snd (mkdtemp empty_world))).
    + intros argv w. apply keeps_dirs_refl.
    + vm_compute. reflexivity.
  - apply (run_bandit_removes_clone_iff_it_returns Demo.reporting
             "https://github.com/o/r" "" empty_world (snd (mkdtemp empty_world))).
    + intros argv w. apply keeps_dirs_refl.
    + vm_compute. reflexivity.
Defined.

(** The loop of [run_bandit] over results that have the six keys. *)
Lemma collect_rows (items : list pyval) (rows : list (list pyval)) :
  Forall2 reads_row items rows ->
  forall (acc : list (list pyval)) (w : World),
    for_fold items acc (fun csv_data result =>
      filename <- lift (py_getitem result "filename") ;;
      line_number <- lift (py_getitem result "line_number") ;;
      issue_severity <- lift (py_getitem result "issue_severity") ;;
      issue_confidence <- lift (py_getitem result "issue_confidence") ;;
      issue_text <- lift (py_getitem result "issue_text") ;;
      more_info <- lift (py_getitem result "more_info") ;;
      ret (csv_data ++ [[filename; line_number; issue_severity;
                         issue_confidence; issue_text; more_info]])) w
    = (Ok (acc ++ rows), w).
Proof.
  induction 1 as [|item row items rows Hrow HF IH]; intros acc w; simpl.
  - rewrite app_nil_r. reflexivity.
  - unfold reads_row, result_fields in Hrow.
    repeat match goal with
           | H : Forall2 _ (_ :: _) _ |- _ => inversion H; subst; clear H
           | H : Forall2 _ [] _ |- _ => inversion H; subst; clear H
           end.
    unfold bind at 1. unfold bind, lift.
    repeat match goal with H : py_getitem item _ = Ok _ |- _ => rewrite H; clear H end.
    unfold ret. rewrite IH, <- app_assoc. reflexivity.
Qed.

(** X18. The report of the workflow analysis. When both commands can be
    started, the engine's output decodes to an object whose [results] are
    results with the six keys, the report path can be written and does
    not lie in the clone directory: [run_bandit] returns, the clone
    directory is gone, and the report holds the fixed header row followed
    by one row per result, with the six values in the order of the
    columns — as many rows as results, plus one. *)
Theorem run_bandit_writes_header_and_results
    run_process (target_path output_dir temp_dir : string)
    (w w1 w2 w3 : World) (cloned result : Completed)
    (bandit_data results : pyval) (items : list pyval) (rows : list (list pyval)) :
  let csv_filename := PyString.path_join output_dir "compliance_report.csv" in
  mkdtemp w = (Ok temp_dir, w1) ->
  Workflow.subprocess_run run_process ["git"; "clone"; target_path; temp_dir] w1
  = (Ok cloned, w2) ->
  Workflow.subprocess_run run_process ["bandit"; "-r"; temp_dir; "-f"; "json"] w2
  = (Ok result, w3) ->
  stdout_json result = Some bandit_data ->
  py_getitem bandit_data "results" = Ok results ->
  py_iter results = Ok items ->
  Forall2 reads_row items rows ->
  writable csv_filename w3 = true ->
  temp_dir ∈ w_dirs w3 ->
  under temp_dir csv_filename = false ->
  exists w',
    Workflow.run_bandit run_process target_path output_dir w = (Ok tt, w')
    /\ w_files w' !! csv_filename = Some (Table (map PyStr Workflow.headers :: rows))
    /\ length (map PyStr Workflow.headers :: rows) = S (length items)
    /\ temp_dir ∉ w_dirs w'.
Proof.
  intros csv_filename Hmk Hgit Hbandit Hjson Hres Hiter Hrows Hw Hd Hu.
  unfold Workflow.run_bandit.
  rewrite (bind_ok _ _ _ _ _ Hmk), (bind_ok _ _ _ _ _ Hgit), (bind_ok _ _ _ _ _ Hbandit).
  erewrite bind_ok; cycle 1.
  { unfold Workflow.json_loads. rewrite Hjson. reflexivity. }
  erewrite bind_ok; cycle 1.
  { unfold lift. rewrite Hres. reflexivity. }
  erewrite bind_ok; cycle 1.
  { unfold lift. rewrite Hiter. reflexivity. }
  rewrite (bind_ok _ _ _ _ _ (collect_rows items rows Hrows [] w3)).
  cbv zeta. fold csv_filename. unfold Workflow.write_report.
  rewrite (bind_ok _ _ _ _ _ (write_file_ok _ _ _ Hw)).
  unfold bind at 1. unfold print at 1, emit at 1.
  unfold rmtree. cbn [w_dirs log put_file].
  rewrite (bool_decide_eq_true_2 _ Hd).
  eexists. split; [reflexivity|]. cbn [w_files w_dirs log put_file app].
  split; [|split].
  - apply map_lookup_filter_Some. split; [apply lookup_insert_eq | exact Hu].
  - simpl. f_equal. symmetry. exact (Forall2_length _ _ _ Hrows).
  - intros Hin. apply elem_of_filter in Hin as [Hin _].
    rewrite under_self in Hin. discriminate Hin.
Qed.

Lemma run_bandit_writes_header_and_results_witness :
  exists w',
    Workflow.run_bandit Demo.reporting "https://github.com/o/r" "" empty_world
    = (Ok tt, w')
    /\ w_files w' !! PyString.path_join "" "compliance_report.csv"
       = Some (Table (map PyStr Workflow.headers
                      :: [[PyStr "/tmp/tmp0/a.py"; PyInt 1; PyStr "LOW"; PyStr "HIGH";
                           PyStr "Use of assert detected.";
                           PyStr "https://bandit.readthedocs.io/"]]))
    /\ length (map PyStr Workflow.headers
               :: [[PyStr "/tmp/tmp0/a.py"; PyInt 1; PyStr "LOW"; PyStr "HIGH";
                    PyStr "Use of assert detected.";
                    PyStr "https://bandit.readthedocs.io/"]])
       = S (length [PyDict [("filename", PyStr "/tmp/tmp0/a.py");
                            ("line_number", PyInt 1);
                            ("issue_severity", PyStr "LOW");
                            ("issue_confidence", PyStr "HIGH");
                            ("issue_text", PyStr "Use of assert detected.");
                            ("more_info", PyStr "https://bandit.readthedocs.io/")]])
    /\ "/tmp/tmp0" ∉ w_dirs w'.
Proof.
  apply (run_bandit_writes_header_and_results Demo.reporting
           "https://github.com/o/r" "" "/tmp/tmp0"
           empty_world (snd (mkdtemp empty_world))
           (snd (Workflow.subprocess_run Demo.reporting
                   ["git"; "clone"; "https://github.com/o/r"; "/tmp/tmp0"]
                   (snd (mkdtemp empty_world))))
           (snd (Workflow.subprocess_run Demo.reporting
                   ["bandit"; "-r"; "/tmp/tmp0"; "-f"; "json"]
                   (snd (Workflow.subprocess_run Demo.reporting
                           ["git"; "clone"; "https://github.com/o/r"; "/tmp/tmp0"]
                           (snd (mkdtemp empty_world))))))
           {| stdout := Demo.dumps Demo.one_result; stdout_json := Some Demo.one_result |}
           {| stdout := Demo.dumps Demo.one_result; stdout_json := Some Demo.one_result |}
           Demo.one_result
           (PyList [PyDict [("filename", PyStr "/tmp/tmp0/a.py");
                            ("line_number", PyInt 1);
                            ("issue_severity", PyStr "LOW");
                            ("issue_confidence", PyStr "HIGH");
                            ("issue_text", PyStr "Use of assert detected.");
                            ("more_info", PyStr "https://bandit.readthedocs.io/")]])).
  - vm_compute. reflexivity.
  - vm_compute. reflexivity.
  - vm_compute. reflexivity.
  - reflexivity.
  - reflexivity.
  - reflexivity.
  - repeat constructor.
  - vm_compute. reflexivity.
  - refine (bool_decide_eq_true_1 _ _). vm_compute. reflexivity.
  - vm_compute. reflexivity.
Defined.

(** ** Failures of the download *)








(** ** More on the scan *)

Lemma for_fold_inv {A S} (P : S -> Prop) (xs : list A) (body : S -> A -> M S) :
  (forall s x w, P s -> exists s' w', body s x w = (Ok s', w') /\ P s') ->
  forall s w, P s -> exists s' w', for_fold xs s body w = (Ok s', w') /\ P s'.
Proof.
  intros Hb. induction xs as [|x r IH]; intros s w Hs; simpl.
  - exists s, w. split; [reflexivity | exact Hs].
  - destruct (Hb s x w Hs) as (s1 & w1 & H1 & P1).
    rewrite (bind_ok _ _ _ _ _ H1). apply IH. exact P1.
Qed.

(** X22. An engine that raises on every file gives an empty scan: each
    failure is caught and printed, the scan goes on to the next file, and
    [scan_directory] returns no issue. *)
Theorem scan_directory_with_failing_engine
    Mgr mgr_new mgr_run mgr_results (directory : string) (w : World) :
  (forall m path content, snd (mgr_run m path content) <> None) ->
  fst (scan_directory Mgr mgr_new mgr_run mgr_results directory w) = Ok [].
Proof.
  intros Hfail. unfold scan_directory.
  erewrite (bind_ok (os_walk directory)); [|reflexivity].
  match goal with
  | |- fst (bind (for_fold ?tree ?st0 ?body) _ ?w0) = _ =>
      destruct (for_fold_inv (fun acc : Mgr * list Bandit.Issue => snd acc = [])
                  tree body) with (s := st0) (w := w0) as (st' & w' & Hloop & Hst)
  end.
  - intros st entry w0 Hst. apply for_fold_inv; [|exact Hst].
    intros st1 file w1 Hst1.
    destruct (PyString.endswith file ".py"); [|exists st1, w1; split; [reflexivity|exact Hst1]].
    unfold bind at 1. unfold print at 1, emit at 1.
    unfold bind at 1. unfold run_bandit_on_file.
    match goal with |- context [mgr_run ?m ?p ?c] =>
      pose proof (Hfail m p c) as Hf; destruct (mgr_run m p c) as [m' [e|]]
    end; [|destruct (Hf eq_refl)].
    eexists _, _. split; [reflexivity|]. simpl. rewrite Hst1. reflexivity.
  - reflexivity.
  - rewrite (bind_ok _ _ _ _ _ Hloop). simpl. rewrite Hst. reflexivity.
Qed.

Lemma scan_directory_with_failing_engine_witness :
  fst (scan_directory Demo.Mgr Demo.mgr_new Demo.failing_run Demo.mgr_results
         "temp" Demo.staged) = Ok [].
Proof.
  apply (scan_directory_with_failing_engine Demo.Mgr Demo.mgr_new Demo.failing_run
           Demo.mgr_results "temp" Demo.staged).
  intros m path content. simpl. discriminate.
Defined.

(** X23. A directory that does not exist is not an error for the scan:
    the walk finds nothing, and [scan_directory] returns no issue and
    leaves the world as it is. *)
Theorem scan_directory_of_missing_directory
    Mgr mgr_new mgr_run mgr_results (directory : string) (w : World) :
  directory ∉ w_dirs w ->
  scan_directory Mgr mgr_new mgr_run mgr_results directory w = (Ok [], w).
Proof.
  intros Hd. unfold scan_directory, os_walk, bind.
  rewrite (bool_decide_eq_false_2 _ Hd). reflexivity.
Qed.

Lemma scan_directory_of_missing_directory_witness :
  scan_directory Demo.Mgr Demo.mgr_new Demo.mgr_run Demo.mgr_results "temp" empty_world
  = (Ok [], empty_world).
Proof.
  apply (scan_directory_of_missing_directory Demo.Mgr Demo.mgr_new Demo.mgr_run
           Demo.mgr_results "temp" empty_world).
  set_solver.
Defined.
